(** * django-money: the [Money] adapter of [djmoney/money.py]

    A shallow embedding of [djmoney.money.Money], the subclass of
    py-moneyed's [moneyed.Money] that carries a decimal-places hint and
    per-instance format options, together with the properties of its
    arithmetic operators, its metadata propagation and its rendering.

    Python objects live on a heap: a [Money] instance is a mutable object
    ([_copy_attributes] assigns [target.decimal_places]; [m + 0] returns
    [self] itself), and the mapping given as [format_options] is shared
    with the caller through a [MappingProxyType].  Methods are therefore
    written in a state-and-exception monad over that heap. *)

From Stdlib Require Import ZArith QArith Qabs Ascii String.
From stdpp Require Import base option list gmap strings fin_maps.

Local Open Scope Z_scope.

(** ** Exceptions and results *)

Inductive exn :=
| TypeError (msg : string)
| AttributeError (msg : string)
| InvalidOperation        (* decimal.InvalidOperation *)
| DivisionByZero          (* decimal.DivisionByZero *)
| ExternalError (msg : string).   (* raised by a collaborator outside this module *)

Inductive result (A : Type) :=
| Ok (a : A)
| Raise (e : exn).

Arguments Ok {A} a.
Arguments Raise {A} e.

Definition is_ok {A} (r : result A) : bool :=
  match r with Ok _ => true | Raise _ => false end.

(** ** The decimal library

    [decimal.Decimal] belongs to Python's standard library, not to this
    repository.  The adapter only uses the operations below; every theorem
    is stated for any implementation of them that obeys the listed laws
    (finite decimals, equality being numeric equality as Python's [==]). *)

Class DecimalLib := {
  Decimal : Type;
  dec_of_Z : Z -> Decimal;                       (* Decimal(str(i)) for an int i *)
  dec_add : Decimal -> Decimal -> Decimal;       (* x + y *)
  dec_mul : Decimal -> Decimal -> Decimal;       (* x * y *)
  dec_neg : Decimal -> Decimal;                  (* -x *)
  dec_abs : Decimal -> Decimal;                  (* abs(x) *)
  dec_div : Decimal -> Decimal -> result Decimal;        (* x / y *)
  dec_quantize : Decimal -> Z -> result Decimal; (* x.quantize(Decimal("1e-n")), i.e. round(x, n) *)
  dec_round_int : Decimal -> Z;                  (* round(x): an int *)
  dec_eqb : Decimal -> Decimal -> bool;          (* x == y *)
  dec_eqb_of_Z : forall a b, dec_eqb (dec_of_Z a) (dec_of_Z b) = (a =? b);
  dec_div_zero : forall x y,
    dec_eqb y (dec_of_Z 0) = true -> is_ok (dec_div x y) = false;
  dec_div_nonzero : forall x y,
    dec_eqb y (dec_of_Z 0) = false -> is_ok (dec_div x y) = true;
  dec_div_same : forall x y q,
    dec_eqb x y = true -> dec_div x y = Ok q -> dec_eqb q (dec_of_Z 1) = true;
}.

(** A concrete decimal library: exact rationals, rounding half to even. *)
Module QDecimal.

Definition pow10 (n : Z) : Q :=
  if 0 <=? n then inject_Z (10 ^ n) else / inject_Z (10 ^ (- n)).

(** Nearest integer, ties to the even one (ROUND_HALF_EVEN). *)
Definition round_half_even (x : Q) : Z :=
  let num := Qnum x in
  let den := Zpos (Qden x) in
  let q := num / den in
  let r := num mod den in
  match 2 * r ?= den with
  | Lt => q
  | Gt => q + 1
  | Eq => if Z.even q then q else q + 1
  end.

Definition add (x y : Q) : Q := Qred (x + y).
Definition mul (x y : Q) : Q := Qred (x * y).
Definition neg (x : Q) : Q := Qred (- x).
Definition abs (x : Q) : Q := Qred (Qabs x).
Definition eqb (x y : Q) : bool := Qeq_bool x y.

Definition div (x y : Q) : result Q :=
  if Qeq_bool y 0 then
    Raise (if Qeq_bool x 0 then InvalidOperation else DivisionByZero)
  else Ok (Qred (x / y)).

Definition quantize (x : Q) (n : Z) : result Q :=
  Ok (Qred (inject_Z (round_half_even (x * pow10 n)) * pow10 (- n))).

Lemma eqb_of_Z a b : eqb (inject_Z a) (inject_Z b) = (a =? b).
Proof.
  unfold eqb. destruct (Z.eqb_spec a b) as [->|Hne].
  - apply Qeq_bool_iff. reflexivity.
  - destruct (Qeq_bool (inject_Z a) (inject_Z b)) eqn:E; [|reflexivity].
    apply Qeq_bool_iff in E. unfold Qeq in E. simpl in E. lia.
Qed.

Lemma div_zero x y : eqb y (inject_Z 0) = true -> is_ok (div x y) = false.
Proof. unfold eqb, div. change (inject_Z 0) with 0%Q. intros ->. reflexivity. Qed.

Lemma div_nonzero x y : eqb y (inject_Z 0) = false -> is_ok (div x y) = true.
Proof. unfold eqb, div. change (inject_Z 0) with 0%Q. intros ->. reflexivity. Qed.

Lemma div_same x y q :
  eqb x y = true -> div x y = Ok q -> eqb q (inject_Z 1) = true.
Proof.
  unfold div, eqb. intros Hxy. destruct (Qeq_bool y 0) eqn:Hy; [discriminate|].
  intros [= <-]. apply Qeq_bool_iff. apply Qeq_bool_iff in Hxy.
  rewrite Qred_correct, Hxy. apply Qmult_inv_r.
  intros Hz. apply Qeq_bool_iff in Hz. congruence.
Qed.

#[export] Instance lib : DecimalLib := {|
  Decimal := Q;
  dec_of_Z := inject_Z;
  dec_add := add;
  dec_mul := mul;
  dec_neg := neg;
  dec_abs := abs;
  dec_div := div;
  dec_quantize := quantize;
  dec_round_int := round_half_even;
  dec_eqb := eqb;
  dec_eqb_of_Z := eqb_of_Z;
  dec_div_zero := div_zero;
  dec_div_nonzero := div_nonzero;
  dec_div_same := div_same;
|}.

End QDecimal.

(** ** Python values, objects and the heap *)

Abbreviation loc := nat (only parsing).

(** [moneyed.Currency]: compared by its code. *)
Abbreviation Currency := string (only parsing).

(** A formatting-parameter value of the [format_options] mapping. *)
Inductive fval :=
| FBool (b : bool)
| FStr (s : string)
| FInt (z : Z).

#[export] Instance fval_eq_dec : EqDecision fval.
Proof. solve_decision. Defined.

(** The two classes an instance can have: [djmoney.money.Money] and its
    parent [moneyed.Money] (imported as [DefaultMoney]). *)
Inductive MoneyClass := DjMoney | BaseMoney.

#[export] Instance MoneyClass_eq_dec : EqDecision MoneyClass.
Proof. solve_decision. Defined.

Section Model.
Context `{DecimalLib}.

(** [django.db.models.expressions]: a [Combinable] stands for a deferred
    database computation.  [Value] wraps a Python constant. *)
Inductive constant :=
| IntConst (z : Z)
| DecimalConst (d : Decimal).

Inductive connector := ADD | SUB | MUL | DIV.

Inductive expr :=
| F (name : string)
| Value (c : constant)
| CombinedExpression (lhs : expr) (op : connector) (rhs : expr).

(** [Combinable._combine(other, connector, reversed)] for an [other]
    without [resolve_expression]: it is wrapped in [Value]. *)
Definition Combinable__combine (self : expr) (other : constant)
    (op : connector) (reversed : bool) : expr :=
  if reversed then CombinedExpression (Value other) op self
  else CombinedExpression self op (Value other).

Definition Combinable___radd__ (self : expr) (other : Decimal) : expr :=
  Combinable__combine self (DecimalConst other) ADD true.
Definition Combinable___rsub__ (self : expr) (other : Decimal) : expr :=
  Combinable__combine self (DecimalConst other) SUB true.
Definition Combinable___rmul__ (self : expr) (other : Decimal) : expr :=
  Combinable__combine self (DecimalConst other) MUL true.
Definition Combinable___rtruediv__ (self : expr) (other : Decimal) : expr :=
  Combinable__combine self (DecimalConst other) DIV true.
Definition Combinable___neg__ (self : expr) : expr :=
  Combinable__combine self (IntConst (-1)) MUL false.

(** The values an operator of [Money] can meet as its other operand.
    A [float] operand, which the parent class turns into a [Decimal] after
    a warning, is left out. *)
Inductive pyvalue :=
| PyNone
| PyNotImplemented
| PyInt (z : Z)
| PyDecimal (d : Decimal)
| PyRef (l : loc)           (* an object on the heap *)
| PyExpr (e : expr).        (* an instance of Combinable *)

(** [types.MappingProxyType(mapping)]: a read-only view that keeps a
    reference to the mapping it was built from. *)
Inductive mappingproxy := MappingProxy (mapping : loc).

(** A money instance.  [decimal_places], [format_options] and [use_l10n]
    are the attributes [djmoney] adds; an instance of the parent class
    has none of them, which every read in this module
    ([getattr(candidate, "decimal_places", None)]) sees as [None]. *)
Record Money := mkMoney {
  klass : MoneyClass;
  amount : Decimal;
  currency : Currency;
  decimal_places : option Z;
  format_options : option mappingproxy;
  use_l10n : option bool;
}.

Inductive obj :=
| OMoney (m : Money)
| ODict (d : gmap string fval).

Abbreviation heap := (list obj) (only parsing).

(** ** The monad of methods: heap state and exceptions *)

Definition M (A : Type) : Type := heap -> result A * heap.

Definition ret {A} (a : A) : M A := fun h => (Ok a, h).
Definition raise {A} (e : exn) : M A := fun h => (Raise e, h).
Definition bind {A B} (m : M A) (k : A -> M B) : M B :=
  fun h =>
    match m h with
    | (Ok a, h') => k a h'
    | (Raise e, h') => (Raise e, h')
    end.
Definition lift {A} (r : result A) : M A := fun h => (r, h).

(** Object creation: the new object gets the next free location. *)
Definition alloc (o : obj) : M loc := fun h => (Ok (length h), h ++ [o]).

(** The money instance a value refers to, if it is one
    ([isinstance(value, moneyed.Money)]). *)
Definition money_of (h : heap) (v : pyvalue) : option Money :=
  match v with
  | PyRef l => match h !! l with Some (OMoney m) => Some m | _ => None end
  | _ => None
  end.

Definition isinstance_Money (v : pyvalue) : M (option Money) :=
  fun h => (Ok (money_of h v), h).

(** Reading [self] inside a method. *)
Definition load_self (self : loc) : M Money :=
  fun h =>
    match h !! self with
    | Some (OMoney m) => (Ok m, h)
    | _ => (Raise (AttributeError "amount"), h)
    end.

(** ** Process-wide configuration and external collaborators *)

Record Env := mkEnv {
  DECIMAL_PLACES : Z;                    (* djmoney.settings.DECIMAL_PLACES *)
  MONEY_FORMAT : gmap string fval;       (* djmoney.settings.MONEY_FORMAT *)
  AUTO_CONVERT_MONEY : bool;             (* getattr(settings, "AUTO_CONVERT_MONEY", False) *)
  USE_L10N : bool;                       (* getattr(settings, "USE_L10N", True) *)
  LANGUAGE_CODE : string;                (* settings.LANGUAGE_CODE *)
  get_language : option string;          (* translation.get_language() *)
  to_locale : string -> string;          (* translation.to_locale *)
  convert_money : pyvalue -> Currency -> M pyvalue;
                                         (* djmoney.contrib.exchange.models.convert_money *)
  format_money : Money -> gmap string fval -> string;
                                         (* moneyed.l10n.format_money *)
}.

End Model.

Abbreviation heap := (list obj) (only parsing).

Notation "'let*' x ':=' m 'in' k" := (bind m (fun x => k))
  (at level 10, x name, m at level 100, k at level 200).
Notation "m ';;' k" := (bind m (fun _ => k))
  (at level 100, k at level 200, right associativity).

(** ** The program *)

Section Program.
Context `{DecimalLib} (env : Env).

(** *** Builtins used by the module *)

(** [Decimal(str(v))] unless [v] is a [Decimal] already ([force_decimal]
    of py-moneyed, and the coercion in [moneyed.Money.__init__]); the
    text of a non-number is no decimal literal. *)
Definition force_decimal (v : pyvalue) : result Decimal :=
  match v with
  | PyDecimal d => Ok d
  | PyInt z => Ok (dec_of_Z z)
  | _ => Raise InvalidOperation
  end.

(** [other == 0] *)
Definition eq_zero (other : pyvalue) : bool :=
  match other with
  | PyInt z => z =? 0
  | PyDecimal d => dec_eqb d (dec_of_Z 0)
  | _ => false
  end.

(** [round(x, n)]: an int when [n] is [None], else [x] quantized. *)
Definition py_round (x : Decimal) (n : option Z) : result pyvalue :=
  match n with
  | None => Ok (PyInt (dec_round_int x))
  | Some k =>
      match dec_quantize x k with
      | Ok q => Ok (PyDecimal q)
      | Raise e => Raise e
      end
  end.

(** [max(selection)] of a non-empty list. *)
Definition py_max (x : Z) (xs : list Z) : Z := foldl Z.max x xs.

Definition truthy (s : string) : bool := negb (String.eqb s "").

(** [MappingProxyType(mapping)] *)
Definition MappingProxyType (mapping : loc) : M mappingproxy :=
  fun h =>
    match h !! mapping with
    | Some (ODict _) => (Ok (MappingProxy mapping), h)
    | _ => (Raise (TypeError "mappingproxy() argument must be a mapping"), h)
    end.

(** The current items of a proxy: those of the dict it wraps. *)
Definition mappingproxy_items (h : heap) (p : mappingproxy) : gmap string fval :=
  match p with
  | MappingProxy l =>
      match h !! l with Some (ODict d) => d | _ => ∅ end
  end.

(** [p[key] = value] and [del p[key]] on a proxy *)
Definition mappingproxy___setitem__ (p : mappingproxy) (key : string)
    (value : fval) : M unit :=
  raise (TypeError "'mappingproxy' object does not support item assignment").

Definition mappingproxy___delitem__ (p : mappingproxy) (key : string) : M unit :=
  raise (TypeError "'mappingproxy' object does not support item deletion").

(** [d[key] = value] on a dict *)
Definition dict___setitem__ (d : loc) (key : string) (value : fval) : M unit :=
  fun h =>
    match h !! d with
    | Some (ODict items) => (Ok tt, <[d := ODict (<[key := value]> items)]> h)
    | _ => (Raise (TypeError "object does not support item assignment"), h)
    end.

(** *** Construction *)

(** [moneyed.Money.__init__(amount, currency)] on a new instance of the
    parent class; [currency] is a [Currency] already. *)
Definition DefaultMoney___init__ (amount : pyvalue) (currency : Currency) : M loc :=
  let* a := lift (force_decimal amount) in
  alloc (OMoney (mkMoney BaseMoney a currency None None None)).

(** [Money(amount, currency, decimal_places=..., format_options=...)].
    [decimal_places] is [None] when the keyword is not given. *)
Definition Money___init__ (amount : pyvalue) (currency : Currency)
    (decimal_places : option (option Z)) (format_options : option loc) : M loc :=
  let dp := default (Some (DECIMAL_PLACES env)) decimal_places in
  let* fo := match format_options with
             | Some mapping => let* p := MappingProxyType mapping in ret (Some p)
             | None => ret None
             end in
  let* a := lift (force_decimal amount) in
  alloc (OMoney (mkMoney DjMoney a currency dp fo None)).

(** [self.__class__(amount=amount, currency=currency)] in a method of
    the parent class. *)
Definition construct (k : MoneyClass) (amount : Decimal) (currency : Currency)
    : M pyvalue :=
  let* new := match k with
              | DjMoney => Money___init__ (PyDecimal amount) currency None None
              | BaseMoney => DefaultMoney___init__ (PyDecimal amount) currency
              end in
  ret (PyRef new).

(** *** Metadata propagation *)

(** [getattr(candidate, "decimal_places", None)] *)
Definition getattr_decimal_places (h : heap) (candidate : pyvalue) : option Z :=
  match money_of h candidate with
  | Some m => decimal_places m
  | None => None
  end.

(** [target.decimal_places = v]; the targets met here are results of the
    parent's operators. *)
Definition with_decimal_places (m : Money) (v : option Z) : Money :=
  mkMoney (klass m) (amount m) (currency m) v (format_options m) (use_l10n m).

Definition setattr_decimal_places (target : pyvalue) (v : option Z) : M unit :=
  fun h =>
    match target with
    | PyRef l =>
        match h !! l with
        | Some (OMoney m) => (Ok tt, <[l := OMoney (with_decimal_places m v)]> h)
        | _ => (Raise (AttributeError "decimal_places"), h)
        end
    | _ => (Raise (AttributeError "decimal_places"), h)
    end.

Definition Money__copy_attributes (self : loc) (source target : pyvalue) : M unit :=
  fun h =>
    let selection := omap (getattr_decimal_places h) [PyRef self; source] in
    match selection with
    | [] => (Ok tt, h)
    | x :: xs => setattr_decimal_places target (Some (py_max x xs)) h
    end.

(** *** Currency conversion *)

(** [value.currency] *)
Definition getattr_currency (value : pyvalue) : M Currency :=
  fun h =>
    match money_of h value with
    | Some m => (Ok (currency m), h)
    | None => (Raise (AttributeError "currency"), h)
    end.

Definition maybe_convert (value : pyvalue) (currency : Currency) : M pyvalue :=
  if AUTO_CONVERT_MONEY env then
    let* c := getattr_currency value in
    if decide (c ≠ currency) then convert_money env value currency
    else ret value
  else ret value.

(** *** Unary operators *)

Definition DefaultMoney___pos__ (self : loc) : M pyvalue :=
  let* m := load_self self in
  construct (klass m) (amount m) (currency m).

Definition DefaultMoney___neg__ (self : loc) : M pyvalue :=
  let* m := load_self self in
  construct (klass m) (dec_neg (amount m)) (currency m).

Definition DefaultMoney___abs__ (self : loc) : M pyvalue :=
  let* m := load_self self in
  construct (klass m) (dec_abs (amount m)) (currency m).

Definition Money___pos__ (self : loc) : M pyvalue :=
  let* new := DefaultMoney___pos__ self in
  Money__copy_attributes self (PyRef self) new;;
  ret new.

Definition Money___neg__ (self : loc) : M pyvalue :=
  let* new := DefaultMoney___neg__ self in
  Money__copy_attributes self (PyRef self) new;;
  ret new.

Definition Money___abs__ (self : loc) : M pyvalue :=
  let* new := DefaultMoney___abs__ self in
  Money__copy_attributes self (PyRef self) new;;
  ret new.

(** [-other]: the operand's own [__neg__]. *)
Definition py_neg (other : pyvalue) : M pyvalue :=
  match other with
  | PyInt z => ret (PyInt (- z))
  | PyDecimal d => ret (PyDecimal (dec_neg d))
  | PyExpr e => ret (PyExpr (Combinable___neg__ e))
  | PyRef l =>
      let* o := isinstance_Money other in
      match o with
      | Some m =>
          match klass m with
          | DjMoney => Money___neg__ l
          | BaseMoney => DefaultMoney___neg__ l
          end
      | None => raise (TypeError "bad operand type for unary -")
      end
  | _ => raise (TypeError "bad operand type for unary -")
  end.

(** *** Addition and subtraction *)

Definition DefaultMoney___add__ (self : loc) (other : pyvalue) : M pyvalue :=
  if eq_zero other then ret (PyRef self)
  else
    let* o := isinstance_Money other in
    match o with
    | None => ret PyNotImplemented
    | Some om =>
        let* m := load_self self in
        if decide (currency m = currency om) then
          construct (klass m) (dec_add (amount m) (amount om)) (currency m)
        else
          raise (TypeError
            "Cannot add or subtract two Money instances with different currencies.")
    end.

Definition Money___add__ (self : loc) (other : pyvalue) : M pyvalue :=
  match other with
  | PyExpr e =>
      let* m := load_self self in
      ret (PyExpr (Combinable___radd__ e (amount m)))
  | _ =>
      let* m := load_self self in
      let* other := maybe_convert other (currency m) in
      let* result := DefaultMoney___add__ self other in
      Money__copy_attributes self other result;;
      ret result
  end.

Definition Money___radd__ (self : loc) (other : pyvalue) : M pyvalue :=
  Money___add__ self other.

(** [self.__add__(...)] called from a method of the parent class:
    dispatched on the class of [self]. *)
Definition call___add__ (self : loc) (other : pyvalue) : M pyvalue :=
  let* m := load_self self in
  match klass m with
  | DjMoney => Money___add__ self other
  | BaseMoney => DefaultMoney___add__ self other
  end.

Definition DefaultMoney___sub__ (self : loc) (other : pyvalue) : M pyvalue :=
  let* negated := py_neg other in
  call___add__ self negated.

Definition Money___sub__ (self : loc) (other : pyvalue) : M pyvalue :=
  match other with
  | PyExpr e =>
      let* m := load_self self in
      ret (PyExpr (Combinable___rsub__ e (amount m)))
  | _ =>
      let* m := load_self self in
      let* other := maybe_convert other (currency m) in
      let* result := DefaultMoney___sub__ self other in
      Money__copy_attributes self other result;;
      ret result
  end.

(** *** Multiplication *)

Definition DefaultMoney___mul__ (self : loc) (other : pyvalue) : M pyvalue :=
  let* o := isinstance_Money other in
  match o with
  | Some _ => raise (TypeError "Cannot multiply two Money instances.")
  | None =>
      let* d := lift (force_decimal other) in
      let* m := load_self self in
      construct (klass m) (dec_mul (amount m) d) (currency m)
  end.

Definition Money___mul__ (self : loc) (other : pyvalue) : M pyvalue :=
  match other with
  | PyExpr e =>
      let* m := load_self self in
      ret (PyExpr (Combinable___rmul__ e (amount m)))
  | _ =>
      let* result := DefaultMoney___mul__ self other in
      Money__copy_attributes self other result;;
      ret result
  end.

Definition Money___rmul__ (self : loc) (other : pyvalue) : M pyvalue :=
  Money___mul__ self other.

(** *** Division *)

Definition DefaultMoney___truediv__ (self : loc) (other : pyvalue) : M pyvalue :=
  let* o := isinstance_Money other in
  match o with
  | Some om =>
      let* m := load_self self in
      if decide (currency m ≠ currency om) then
        raise (TypeError "Cannot divide two different currencies.")
      else
        let* q := lift (dec_div (amount m) (amount om)) in
        ret (PyDecimal q)
  | None =>
      let* d := lift (force_decimal other) in
      let* m := load_self self in
      let* q := lift (dec_div (amount m) d) in
      construct (klass m) q (currency m)
  end.

(** [isinstance(result, self.__class__)] for [self] of class [Money]. *)
Definition isinstance_DjMoney (v : pyvalue) : M bool :=
  fun h =>
    (Ok match money_of h v with
        | Some m => bool_decide (klass m = DjMoney)
        | None => false
        end, h).

Definition Money___truediv__ (self : loc) (other : pyvalue) : M pyvalue :=
  match other with
  | PyExpr e =>
      let* m := load_self self in
      ret (PyExpr (Combinable___rtruediv__ e (amount m)))
  | _ =>
      let* result := DefaultMoney___truediv__ self other in
      let* is_money := isinstance_DjMoney result in
      (if is_money : bool then Money__copy_attributes self other result
       else ret tt);;
      ret result
  end.

Definition Money___rtruediv__ (self : loc) (other : pyvalue) : M pyvalue :=
  raise (TypeError "Cannot divide non-Money by a Money instance.").

(** *** Percentage: [other % self] *)

Definition DefaultMoney___rmod__ (self : loc) (other : pyvalue) : M pyvalue :=
  let* o := isinstance_Money other in
  match o with
  | Some _ => raise (TypeError "Invalid __rmod__ operation")
  | None =>
      let* d := lift (force_decimal other) in
      let* m := load_self self in
      let* q := lift (dec_div (dec_mul d (amount m)) (dec_of_Z 100)) in
      construct (klass m) q (currency m)
  end.

Definition Money___rmod__ (self : loc) (other : pyvalue) : M pyvalue :=
  let* new := DefaultMoney___rmod__ self other in
  Money__copy_attributes self (PyRef self) new;;
  ret new.

(** *** Rounding *)

Definition Money___round__ (self : loc) (n : option Z) : M pyvalue :=
  let* m := load_self self in
  let* amount := lift (py_round (amount m) n) in
  let* new := Money___init__ amount (currency m) None None in
  Money__copy_attributes self (PyRef self) (PyRef new);;
  ret (PyRef new).

(** [moneyed.Money.round(ndigits)]; [None] stands for zero digits. *)
Definition DefaultMoney_round (self : loc) (ndigits : option Z) : M pyvalue :=
  let ndigits := default 0 ndigits in
  let* m := load_self self in
  let* q := lift (dec_quantize (amount m) ndigits) in
  construct (klass m) q (currency m).

Definition Money_round (self : loc) (ndigits : option Z) : M pyvalue :=
  let* new := DefaultMoney_round self ndigits in
  Money__copy_attributes self (PyRef self) new;;
  ret new.

(** *** Localization and rendering *)

Definition Money_is_localized (self : loc) : M bool :=
  let* m := load_self self in
  match use_l10n m with
  | None => ret (USE_L10N env)
  | Some b => ret b
  end.

Definition get_current_locale : string :=
  to_locale env
    match get_language env with
    | Some language => if truthy language then language else LANGUAGE_CODE env
    | None => LANGUAGE_CODE env
    end.

(** [{**MONEY_FORMAT, **(self.format_options or {})}]: on a common key
    the entry written last, the instance's, is the one kept. *)
Definition merged_format_options (h : heap) (m : Money) : gmap string fval :=
  match format_options m with
  | Some p => mappingproxy_items h p ∪ MONEY_FORMAT env
  | None => MONEY_FORMAT env
  end.

(** The keyword arguments [Money.__str__] gives to [format_money]. *)
Definition Money_str_kwargs (self : loc) : M (gmap string fval) :=
  let* m := load_self self in
  fun h =>
    let format_options := merged_format_options h m in
    let locale := get_current_locale in
    (Ok (if truthy locale then <["locale" := FStr locale]> format_options
         else format_options), h).

Definition Money___str__ (self : loc) : M string :=
  let* m := load_self self in
  let* format_options := Money_str_kwargs self in
  ret (format_money env m format_options).

End Program.

(** * Properties *)

Section Properties.
Context `{DecimalLib} (env : Env).
Implicit Types (h : heap) (m : Money) (v : pyvalue) (l : loc).

(** ** Heap facts *)

Lemma lookup_old h (t : heap) l (o : obj) :
  h !! l = Some o -> (h ++ t) !! l = Some o.
Proof. apply lookup_app_l_Some. Qed.

Lemma lookup_new h (o : obj) : (h ++ [o]) !! length h = Some o.
Proof. by apply list_lookup_middle. Qed.

Lemma insert_new h (o o' : obj) : <[length h := o']> (h ++ [o]) = h ++ [o'].
Proof.
  rewrite insert_app_r_alt by lia. by rewrite Nat.sub_diag.
Qed.

(** A value is valid in a heap when it does not point past its end. *)
Definition valid h v : Prop :=
  match v with PyRef l => (l < length h)%nat | _ => True end.

Lemma valid_lookup h l (o : obj) : h !! l = Some o -> valid h (PyRef l).
Proof. intros Hl. simpl. by eapply lookup_lt_Some. Qed.

Lemma money_of_app h (t : heap) v : valid h v -> money_of (h ++ t) v = money_of h v.
Proof.
  destruct v; try done. unfold money_of, valid. intros Hl. by rewrite lookup_app_l.
Qed.

Lemma money_of_ref h l m : h !! l = Some (OMoney m) -> money_of h (PyRef l) = Some m.
Proof. simpl. by intros ->. Qed.

Lemma getattr_decimal_places_app h (t : heap) v :
  valid h v -> getattr_decimal_places (h ++ t) v = getattr_decimal_places h v.
Proof. intros Hv. unfold getattr_decimal_places. by rewrite money_of_app. Qed.

Lemma getattr_decimal_places_ref h l m :
  h !! l = Some (OMoney m) -> getattr_decimal_places h (PyRef l) = decimal_places m.
Proof. intros Hl. unfold getattr_decimal_places. by rewrite (money_of_ref _ _ _ Hl). Qed.

(** ** Metadata propagation *)

(** The maximum of the defined entries, if there is one. *)
Definition max_defined (ds : list (option Z)) : option Z :=
  match omap id ds with
  | [] => None
  | x :: xs => Some (py_max x xs)
  end.

(** The instance [new] after [_copy_attributes] chose among [ds]. *)
Definition propagate (ds : list (option Z)) (new : Money) : Money :=
  match max_defined ds with
  | Some d => with_decimal_places new (Some d)
  | None => new
  end.

Lemma copy_attributes_selection h self source :
  omap (getattr_decimal_places h) [PyRef self; source]
  = omap id [getattr_decimal_places h (PyRef self); getattr_decimal_places h source].
Proof.
  simpl. destruct (getattr_decimal_places h (PyRef self)), (getattr_decimal_places h source); done.
Qed.

Lemma copy_attributes_at h self source l mt :
  h !! l = Some (OMoney mt) ->
  Money__copy_attributes self source (PyRef l) h
  = (Ok tt,
     <[l := OMoney (propagate [getattr_decimal_places h (PyRef self);
                               getattr_decimal_places h source] mt)]> h).
Proof.
  intros Hl. unfold Money__copy_attributes, propagate, max_defined.
  rewrite copy_attributes_selection.
  destruct (omap id _) as [|x xs]; simpl.
  - by rewrite list_insert_id.
  - by rewrite Hl.
Qed.

Lemma copy_attributes_new h self source ms new :
  h !! self = Some (OMoney ms) -> valid h source ->
  Money__copy_attributes self source (PyRef (length h)) (h ++ [OMoney new])
  = (Ok tt,
     h ++ [OMoney (propagate [decimal_places ms; getattr_decimal_places h source] new)]).
Proof.
  intros Hs Hv. rewrite (copy_attributes_at _ _ _ _ new) by apply lookup_new.
  rewrite !getattr_decimal_places_app by eauto using valid_lookup.
  rewrite (getattr_decimal_places_ref _ _ _ Hs). by rewrite insert_new.
Qed.

(** ** Running the methods *)

Lemma bind_ok {A B} (c : M A) (k : A -> M B) h a h' :
  c h = (Ok a, h') -> bind c k h = k a h'.
Proof. unfold bind. by intros ->. Qed.

Lemma load_self_ok h l m : h !! l = Some (OMoney m) -> load_self l h = (Ok m, h).
Proof. unfold load_self. by intros ->. Qed.

(** A freshly constructed instance of [Money]. *)
Definition fresh (a : Decimal) (c : Currency) : Money :=
  mkMoney DjMoney a c (Some (DECIMAL_PLACES env)) None None.

Lemma maybe_convert_same h v m :
  money_of h v = Some m ->
  maybe_convert env v (currency m) h = (Ok v, h).
Proof.
  intros Hv. unfold maybe_convert, bind, getattr_currency.
  destruct (AUTO_CONVERT_MONEY env); [|done].
  rewrite Hv. by rewrite decide_False by auto.
Qed.

Lemma maybe_convert_off h v c :
  AUTO_CONVERT_MONEY env = false -> maybe_convert env v c h = (Ok v, h).
Proof. unfold maybe_convert. by intros ->. Qed.

Lemma decimal_places_propagate ds new :
  decimal_places (propagate ds new)
  = match max_defined ds with Some d => Some d | None => decimal_places new end.
Proof. unfold propagate. by destruct (max_defined ds). Qed.

Lemma format_options_propagate ds new :
  format_options (propagate ds new) = format_options new.
Proof. unfold propagate. by destruct (max_defined ds). Qed.

Lemma use_l10n_propagate ds new : use_l10n (propagate ds new) = use_l10n new.
Proof. unfold propagate. by destruct (max_defined ds). Qed.

Lemma amount_propagate ds new : amount (propagate ds new) = amount new.
Proof. unfold propagate. by destruct (max_defined ds). Qed.

Lemma currency_propagate ds new : currency (propagate ds new) = currency new.
Proof. unfold propagate. by destruct (max_defined ds). Qed.

Lemma klass_propagate ds new : klass (propagate ds new) = klass new.
Proof. unfold propagate. by destruct (max_defined ds). Qed.

(** The shape shared by the operators: the parent's operator builds
    [new], then [_copy_attributes] runs on it. *)
Lemma derive_new (base : M pyvalue) self source h h1 ms new :
  h1 !! self = Some (OMoney ms) -> valid h1 source ->
  base h = (Ok (PyRef (length h1)), h1 ++ [OMoney new]) ->
  (let* result := base in Money__copy_attributes self source result;; ret result) h
  = (Ok (PyRef (length h1)),
     h1 ++ [OMoney (propagate [decimal_places ms; getattr_decimal_places h1 source] new)]).
Proof.
  intros Hs Hv Hb. rewrite (bind_ok _ _ _ _ _ Hb).
  by rewrite (bind_ok _ _ _ _ _ (copy_attributes_new _ _ _ _ _ Hs Hv)).
Qed.

Lemma force_decimal_number v d :
  force_decimal v = Ok d ->
  (forall h, money_of h v = None) /\ (forall h, valid h v)
  /\ (forall h, getattr_decimal_places h v = None).
Proof. destruct v; try discriminate; done. Qed.

(** *** The parent's operators on an instance of [Money] *)

Section base.
Context (h : list obj) (a : nat) (ma : Money).
Hypothesis Ha : h !! a = Some (OMoney ma).
Hypothesis Hk : klass ma = DjMoney.

Lemma base_pos :
  DefaultMoney___pos__ env a h
  = (Ok (PyRef (length h)), h ++ [OMoney (fresh (amount ma) (currency ma))]).
Proof.
  unfold DefaultMoney___pos__. rewrite (bind_ok _ _ _ _ _ (load_self_ok _ _ _ Ha)).
  by rewrite Hk.
Qed.

Lemma base_neg :
  DefaultMoney___neg__ env a h
  = (Ok (PyRef (length h)), h ++ [OMoney (fresh (dec_neg (amount ma)) (currency ma))]).
Proof.
  unfold DefaultMoney___neg__. rewrite (bind_ok _ _ _ _ _ (load_self_ok _ _ _ Ha)).
  by rewrite Hk.
Qed.

Lemma base_abs :
  DefaultMoney___abs__ env a h
  = (Ok (PyRef (length h)), h ++ [OMoney (fresh (dec_abs (amount ma)) (currency ma))]).
Proof.
  unfold DefaultMoney___abs__. rewrite (bind_ok _ _ _ _ _ (load_self_ok _ _ _ Ha)).
  by rewrite Hk.
Qed.

Lemma base_add b mb :
  h !! b = Some (OMoney mb) -> currency ma = currency mb ->
  DefaultMoney___add__ env a (PyRef b) h
  = (Ok (PyRef (length h)),
     h ++ [OMoney (fresh (dec_add (amount ma) (amount mb)) (currency ma))]).
Proof.
  intros Hb Hc. unfold DefaultMoney___add__. cbn [eq_zero].
  unfold isinstance_Money at 1. unfold bind at 1.
  rewrite (money_of_ref _ _ _ Hb).
  rewrite (bind_ok _ _ _ _ _ (load_self_ok _ _ _ Ha)).
  rewrite decide_True by done. by rewrite Hk.
Qed.

Lemma base_mul n d :
  force_decimal n = Ok d ->
  DefaultMoney___mul__ env a n h
  = (Ok (PyRef (length h)), h ++ [OMoney (fresh (dec_mul (amount ma) d) (currency ma))]).
Proof.
  intros Hn. destruct (force_decimal_number _ _ Hn) as (Hm & _ & _).
  unfold DefaultMoney___mul__, isinstance_Money. unfold bind at 1. rewrite Hm.
  unfold lift, bind at 1. rewrite Hn.
  rewrite (bind_ok _ _ _ _ _ (load_self_ok _ _ _ Ha)). by rewrite Hk.
Qed.

Lemma base_truediv n d q :
  force_decimal n = Ok d -> dec_div (amount ma) d = Ok q ->
  DefaultMoney___truediv__ env a n h
  = (Ok (PyRef (length h)), h ++ [OMoney (fresh q (currency ma))]).
Proof.
  intros Hn Hq. destruct (force_decimal_number _ _ Hn) as (Hm & _ & _).
  unfold DefaultMoney___truediv__, isinstance_Money. unfold bind at 1. rewrite Hm.
  unfold lift, bind at 1. rewrite Hn.
  rewrite (bind_ok _ _ _ _ _ (load_self_ok _ _ _ Ha)).
  unfold bind at 1. rewrite Hq. by rewrite Hk.
Qed.

Lemma base_rmod n d q :
  force_decimal n = Ok d -> dec_div (dec_mul d (amount ma)) (dec_of_Z 100) = Ok q ->
  DefaultMoney___rmod__ env a n h
  = (Ok (PyRef (length h)), h ++ [OMoney (fresh q (currency ma))]).
Proof.
  intros Hn Hq. destruct (force_decimal_number _ _ Hn) as (Hm & _ & _).
  unfold DefaultMoney___rmod__, isinstance_Money. unfold bind at 1. rewrite Hm.
  unfold lift, bind at 1. rewrite Hn.
  rewrite (bind_ok _ _ _ _ _ (load_self_ok _ _ _ Ha)).
  unfold bind at 1. rewrite Hq. by rewrite Hk.
Qed.

Lemma base_round ndigits q :
  dec_quantize (amount ma) (default 0 ndigits) = Ok q ->
  DefaultMoney_round env a ndigits h
  = (Ok (PyRef (length h)), h ++ [OMoney (fresh q (currency ma))]).
Proof.
  intros Hq. unfold DefaultMoney_round.
  rewrite (bind_ok _ _ _ _ _ (load_self_ok _ _ _ Ha)).
  unfold lift, bind at 1. rewrite Hq. by rewrite Hk.
Qed.

End base.

(** *** The operators of [Money] on an instance [a] *)

Section operators.
Context (h : list obj) (a : nat) (ma : Money).
Hypothesis Ha : h !! a = Some (OMoney ma).
Hypothesis Hk : klass ma = DjMoney.

(** The instance an operator of [a] derives with amount [x], the other
    operand having the decimal places [d]. *)
Definition derived (d : option Z) (x : Decimal) : Money :=
  propagate [decimal_places ma; d] (fresh x (currency ma)).

Lemma run_pos :
  Money___pos__ env a h
  = (Ok (PyRef (length h)),
     h ++ [OMoney (derived (decimal_places ma) (amount ma))]).
Proof.
  unfold Money___pos__, derived.
  rewrite (derive_new _ a (PyRef a) h h ma _ Ha (valid_lookup _ _ _ Ha) (base_pos _ _ _ Ha Hk)).
  by rewrite (getattr_decimal_places_ref _ _ _ Ha).
Qed.

Lemma run_neg :
  Money___neg__ env a h
  = (Ok (PyRef (length h)),
     h ++ [OMoney (derived (decimal_places ma) (dec_neg (amount ma)))]).
Proof.
  unfold Money___neg__, derived.
  rewrite (derive_new _ a (PyRef a) h h ma _ Ha (valid_lookup _ _ _ Ha) (base_neg _ _ _ Ha Hk)).
  by rewrite (getattr_decimal_places_ref _ _ _ Ha).
Qed.

Lemma run_abs :
  Money___abs__ env a h
  = (Ok (PyRef (length h)),
     h ++ [OMoney (derived (decimal_places ma) (dec_abs (amount ma)))]).
Proof.
  unfold Money___abs__, derived.
  rewrite (derive_new _ a (PyRef a) h h ma _ Ha (valid_lookup _ _ _ Ha) (base_abs _ _ _ Ha Hk)).
  by rewrite (getattr_decimal_places_ref _ _ _ Ha).
Qed.

Lemma run_add b mb :
  h !! b = Some (OMoney mb) -> currency ma = currency mb ->
  Money___add__ env a (PyRef b) h
  = (Ok (PyRef (length h)),
     h ++ [OMoney (derived (decimal_places mb) (dec_add (amount ma) (amount mb)))]).
Proof.
  intros Hb Hc. unfold Money___add__, derived.
  rewrite (bind_ok _ _ _ _ _ (load_self_ok _ _ _ Ha)).
  rewrite Hc at 1.
  rewrite (bind_ok _ _ _ _ _ (maybe_convert_same _ _ _ (money_of_ref _ _ _ Hb))).
  rewrite (derive_new _ a (PyRef b) h h ma _ Ha (valid_lookup _ _ _ Hb)
             (base_add _ _ _ Ha Hk _ _ Hb Hc)).
  by rewrite (getattr_decimal_places_ref _ _ _ Hb).
Qed.

Lemma run_mul n d :
  force_decimal n = Ok d ->
  Money___mul__ env a n h
  = (Ok (PyRef (length h)), h ++ [OMoney (derived None (dec_mul (amount ma) d))]).
Proof.
  intros Hn. destruct (force_decimal_number _ _ Hn) as (_ & Hv & Hg).
  unfold derived. rewrite <- (Hg h).
  rewrite <- (derive_new _ a n h h ma _ Ha (Hv h) (base_mul _ _ _ Ha Hk _ _ Hn)).
  by destruct n.
Qed.

Lemma run_truediv n d q :
  force_decimal n = Ok d -> dec_div (amount ma) d = Ok q ->
  Money___truediv__ env a n h
  = (Ok (PyRef (length h)), h ++ [OMoney (derived None q)]).
Proof.
  intros Hn Hq. destruct (force_decimal_number _ _ Hn) as (_ & Hv & Hg).
  assert (Money___truediv__ env a n h
          = (let* result := DefaultMoney___truediv__ env a n in
             Money__copy_attributes a n result;; ret result) h) as ->.
  { transitivity
      ((let* result := DefaultMoney___truediv__ env a n in
        let* is_money := isinstance_DjMoney result in
        (if is_money : bool then Money__copy_attributes a n result else ret tt);;
        ret result) h); [by destruct n|].
    rewrite !(bind_ok _ _ _ _ _ (base_truediv _ _ _ Ha Hk _ _ _ Hn Hq)).
    unfold isinstance_DjMoney. unfold bind at 1.
    unfold money_of. by rewrite lookup_new. }
  unfold derived. rewrite <- (Hg h).
  apply (derive_new _ a n h h ma _ Ha (Hv h) (base_truediv _ _ _ Ha Hk _ _ _ Hn Hq)).
Qed.

Lemma run_rmod n d q :
  force_decimal n = Ok d -> dec_div (dec_mul d (amount ma)) (dec_of_Z 100) = Ok q ->
  Money___rmod__ env a n h
  = (Ok (PyRef (length h)), h ++ [OMoney (derived (decimal_places ma) q)]).
Proof.
  intros Hn Hq. unfold Money___rmod__, derived.
  rewrite (derive_new _ a (PyRef a) h h ma _ Ha (valid_lookup _ _ _ Ha)
             (base_rmod _ _ _ Ha Hk _ _ _ Hn Hq)).
  by rewrite (getattr_decimal_places_ref _ _ _ Ha).
Qed.

Lemma run_round ndigits q :
  dec_quantize (amount ma) (default 0 ndigits) = Ok q ->
  Money_round env a ndigits h
  = (Ok (PyRef (length h)), h ++ [OMoney (derived (decimal_places ma) q)]).
Proof.
  intros Hq. unfold Money_round, derived.
  rewrite (derive_new _ a (PyRef a) h h ma _ Ha (valid_lookup _ _ _ Ha)
             (base_round _ _ _ Ha Hk _ _ Hq)).
  by rewrite (getattr_decimal_places_ref _ _ _ Ha).
Qed.

(** The amount [__round__] stores: [Decimal(str(round(x)))] when no
    digit count is given, else [round(x, n)]. *)
Definition rounded (x : Decimal) (n : option Z) : result Decimal :=
  match n with
  | None => Ok (dec_of_Z (dec_round_int x))
  | Some k => dec_quantize x k
  end.

Lemma run___round__ n q :
  rounded (amount ma) n = Ok q ->
  Money___round__ env a n h
  = (Ok (PyRef (length h)), h ++ [OMoney (derived (decimal_places ma) q)]).
Proof.
  intros Hq. unfold Money___round__, derived.
  rewrite (bind_ok _ _ _ _ _ (load_self_ok _ _ _ Ha)).
  assert (exists v, py_round (amount ma) n = Ok v /\ force_decimal v = Ok q)
    as (v & Hv & Hf).
  { destruct n as [k|]; simpl in *.
    - rewrite Hq. by eexists.
    - injection Hq as <-. by eexists. }
  unfold lift at 1, bind at 1. rewrite Hv.
  unfold Money___init__. cbn [default].
  unfold bind at 2, ret at 1. unfold lift at 1, bind at 2. rewrite Hf.
  unfold alloc at 1, bind at 1.
  rewrite (bind_ok _ _ _ _ _
             (copy_attributes_new _ _ _ _ _ Ha (valid_lookup _ _ _ Ha))).
  by rewrite (getattr_decimal_places_ref _ _ _ Ha).
Qed.

End operators.

Lemma run_sub h a ma b mb :
  h !! a = Some (OMoney ma) -> klass ma = DjMoney ->
  h !! b = Some (OMoney mb) -> klass mb = DjMoney -> currency ma = currency mb ->
  exists nb r,
    Money___sub__ env a (PyRef b) h
    = (Ok (PyRef (S (length h))), h ++ [OMoney nb; OMoney r])
    /\ nb = derived mb (decimal_places mb) (dec_neg (amount mb))
    /\ r = propagate [decimal_places ma; decimal_places mb]
            (derived ma (decimal_places nb)
               (dec_add (amount ma) (dec_neg (amount mb)))).
Proof.
  intros Ha Hk Hb Hkb Hc.
  set (nb := propagate [decimal_places mb; decimal_places mb]
               (fresh (dec_neg (amount mb)) (currency mb))).
  exists nb, (propagate [decimal_places ma; decimal_places mb]
            (derived ma (decimal_places nb)
               (dec_add (amount ma) (dec_neg (amount mb))))).
  split; [|done].
  assert (Hneg : py_neg env (PyRef b) h = (Ok (PyRef (length h)), h ++ [OMoney nb])).
  { unfold py_neg, isinstance_Money. unfold bind at 1.
    rewrite (money_of_ref _ _ _ Hb), Hkb. apply (run_neg h b mb Hb Hkb). }
  pose (h1 := h ++ [OMoney nb]).
  assert (Ha1 : h1 !! a = Some (OMoney ma)) by by apply lookup_old.
  assert (Hn1 : h1 !! length h = Some (OMoney nb)) by apply lookup_new.
  assert (Hcn : currency ma = currency nb).
  { unfold nb. by rewrite currency_propagate. }
  assert (Han : amount nb = dec_neg (amount mb)).
  { unfold nb. by rewrite amount_propagate. }
  assert (Hbase : DefaultMoney___sub__ env a (PyRef b) h
                  = (Ok (PyRef (length h1)),
                     h1 ++ [OMoney (propagate [decimal_places ma; decimal_places nb]
                        (fresh (dec_add (amount ma) (dec_neg (amount mb))) (currency ma)))])).
  { unfold DefaultMoney___sub__. rewrite (bind_ok _ _ _ _ _ Hneg).
    unfold call___add__. rewrite (bind_ok _ _ _ _ _ (load_self_ok _ _ _ Ha1)).
    rewrite Hk. rewrite (run_add h1 a ma Ha1 Hk _ _ Hn1 Hcn).
    unfold derived. by rewrite Han. }
  unfold Money___sub__.
  rewrite (bind_ok _ _ _ _ _ (load_self_ok _ _ _ Ha)).
  rewrite Hc at 1.
  rewrite (bind_ok _ _ _ _ _ (maybe_convert_same _ _ _ (money_of_ref _ _ _ Hb))).
  assert (Hb1 : h1 !! b = Some (OMoney mb)) by by apply lookup_old.
  rewrite (derive_new _ a (PyRef b) h h1 ma _ Ha1 (valid_lookup _ _ _ Hb1) Hbase).
  rewrite (getattr_decimal_places_ref _ _ _ Hb1).
  unfold h1. rewrite length_app. simpl. rewrite Nat.add_1_r.
  by rewrite <- app_assoc.
Qed.


(** ** Deriving a new instance *)

(** The operators by which a new [Money] comes from an existing one: the
    other operand of [+] and [-] is a money instance, that of [*], [/] and
    [%] a number. *)
Inductive operation :=
| Add (b : nat)
| Sub (b : nat)
| Mul (n : pyvalue)
| Truediv (n : pyvalue)
| Rmod (n : pyvalue)
| Pos
| Neg
| Abs
| Round__ (n : option Z)
| Round (ndigits : option Z).

Definition run (a : nat) (op : operation) : M pyvalue :=
  match op with
  | Add b => Money___add__ env a (PyRef b)
  | Sub b => Money___sub__ env a (PyRef b)
  | Mul n => Money___mul__ env a n
  | Truediv n => Money___truediv__ env a n
  | Rmod n => Money___rmod__ env a n
  | Pos => Money___pos__ env a
  | Neg => Money___neg__ env a
  | Abs => Money___abs__ env a
  | Round__ n => Money___round__ env a n
  | Round ndigits => Money_round env a ndigits
  end.

(** The operands on which the parent's operator computes a result: money
    of the same currency for [+] and [-], a number for [*] and [%], a
    non-zero number for [/], a digit count the decimal library accepts
    for rounding. *)
Definition same_currency_money (h : list obj) (ma : Money) (b : nat) : Prop :=
  exists mb, h !! b = Some (OMoney mb) /\ klass mb = DjMoney
             /\ currency ma = currency mb.

Definition applicable (h : list obj) (ma : Money) (op : operation) : Prop :=
  match op with
  | Add b | Sub b => same_currency_money h ma b
  | Mul n | Rmod n => exists d, force_decimal n = Ok d
  | Truediv n =>
      exists d, force_decimal n = Ok d /\ dec_eqb d (dec_of_Z 0) = false
  | Pos | Neg | Abs => True
  | Round__ n => is_ok (rounded (amount ma) n) = true
  | Round ndigits => is_ok (dec_quantize (amount ma) (default 0 ndigits)) = true
  end.

(** The decimal places of the other operand, when it has any. *)
Definition operand_places (h : list obj) (op : operation) : option Z :=
  match op with
  | Add b | Sub b => getattr_decimal_places h (PyRef b)
  | _ => None
  end.

(** [c] returns a new instance of [Money] that satisfies [P], and leaves
    every object that existed before as it was. *)
Definition derives (c : M pyvalue) (h : list obj) (P : Money -> Prop) : Prop :=
  exists l h' r,
    c h = (Ok (PyRef l), h') /\ h `prefix_of` h' /\ (length h <= l)%nat
    /\ h' !! l = Some (OMoney r) /\ klass r = DjMoney /\ P r.

Lemma derives_new c h r P :
  c h = (Ok (PyRef (length h)), h ++ [OMoney r]) -> klass r = DjMoney /\ P r ->
  derives c h P.
Proof.
  intros Hc [Hk HP]. exists (length h), (h ++ [OMoney r]), r.
  repeat split; try done.
  - by apply prefix_app_r.
  - apply lookup_new.
Qed.

Lemma is_ok_true {A} (r : result A) : is_ok r = true -> exists a, r = Ok a.
Proof. destruct r; [by eexists | discriminate]. Qed.

Lemma max_defined_same x : max_defined [x; x] = max_defined [x; None].
Proof. destruct x; [|done]. unfold max_defined. simpl. by rewrite Z.max_id. Qed.

Lemma max_defined_None x y : max_defined [x; y] = None -> x = None /\ y = None.
Proof. by destruct x, y. Qed.

(** What a derived instance carries: the currency of [a], the maximum of
    the defined decimal places of the operands (the configured default
    when none is defined), and otherwise the attributes of a new
    instance. *)
Definition derived_from (h : list obj) (ma : Money) (op : operation) (r : Money) : Prop :=
  currency r = currency ma
  /\ format_options r = None
  /\ use_l10n r = None
  /\ decimal_places r
     = match max_defined [decimal_places ma; operand_places h op] with
       | Some d => Some d
       | None => Some (DECIMAL_PLACES env)
       end.

Lemma derived_ok h ma op d x :
  max_defined [decimal_places ma; d]
  = max_defined [decimal_places ma; operand_places h op] ->
  klass (derived ma d x) = DjMoney /\ derived_from h ma op (derived ma d x).
Proof.
  intros Hd. unfold derived, derived_from.
  rewrite klass_propagate, currency_propagate, format_options_propagate,
    use_l10n_propagate, decimal_places_propagate, Hd.
  done.
Qed.

Lemma run_derives h a ma op :
  h !! a = Some (OMoney ma) -> klass ma = DjMoney -> applicable h ma op ->
  derives (run a op) h (derived_from h ma op).
Proof.
  intros Ha Hk Hop. destruct op as [b|b|n|n|n| | | |n|nd]; simpl in Hop.
  - destruct Hop as (mb & Hb & _ & Hc).
    eapply derives_new; [apply (run_add h a ma Ha Hk b mb Hb Hc)|];
      apply derived_ok; simpl; by rewrite (getattr_decimal_places_ref _ _ _ Hb).
  - destruct Hop as (mb & Hb & Hkb & Hc).
    destruct (run_sub h a ma b mb Ha Hk Hb Hkb Hc) as (nb & r & Hrun & Hnb & ->).
    eexists (S (length h)), (h ++ [OMoney nb; _]), _.
    split; [exact Hrun|]. split; [by apply prefix_app_r|]. split; [lia|].
    split.
    { rewrite lookup_app_r by lia.
      by replace (S (length h) - length h)%nat with 1%nat by lia. }
    unfold derived_from, derived. simpl operand_places.
    rewrite (getattr_decimal_places_ref _ _ _ Hb).
    rewrite !klass_propagate, !currency_propagate, !format_options_propagate,
      !use_l10n_propagate, !decimal_places_propagate.
    repeat split.
    destruct (max_defined [decimal_places ma; decimal_places mb]) eqn:Hmax; [done|].
    apply max_defined_None in Hmax as [Hma Hmb]. subst nb. unfold derived.
    rewrite decimal_places_propagate, Hma, Hmb. done.
  - destruct Hop as (d & Hn).
    eapply derives_new; [apply (run_mul h a ma Ha Hk n d Hn)|]; by apply derived_ok.
  - destruct Hop as (d & Hn & Hz).
    destruct (is_ok_true _ (dec_div_nonzero (amount ma) d Hz)) as (q & Hq).
    eapply derives_new; [apply (run_truediv h a ma Ha Hk n d q Hn Hq)|];
      by apply derived_ok.
  - destruct Hop as (d & Hn).
    assert (Hz : dec_eqb (dec_of_Z 100) (dec_of_Z 0) = false) by by rewrite dec_eqb_of_Z.
    destruct (is_ok_true _ (dec_div_nonzero (dec_mul d (amount ma)) _ Hz)) as (q & Hq).
    eapply derives_new; [apply (run_rmod h a ma Ha Hk n d q Hn Hq)|];
      apply derived_ok; apply max_defined_same.
  - eapply derives_new; [apply (run_pos h a ma Ha Hk)|];
      apply derived_ok; apply max_defined_same.
  - eapply derives_new; [apply (run_neg h a ma Ha Hk)|];
      apply derived_ok; apply max_defined_same.
  - eapply derives_new; [apply (run_abs h a ma Ha Hk)|];
      apply derived_ok; apply max_defined_same.
  - destruct (is_ok_true _ Hop) as (q & Hq).
    eapply derives_new; [apply (run___round__ h a ma Ha n q Hq)|];
      apply derived_ok; apply max_defined_same.
  - destruct (is_ok_true _ Hop) as (q & Hq).
    eapply derives_new; [apply (run_round h a ma Ha Hk nd q Hq)|];
      apply derived_ok; apply max_defined_same.
Qed.

Lemma derives_impl c h (P Q : Money -> Prop) :
  derives c h P -> (forall r, P r -> Q r) -> derives c h Q.
Proof.
  intros (l & h' & r & Hc & Hp & Hl & Hr & Hk & HP) HPQ.
  exists l, h', r. eauto 10.
Qed.

(** ** Metadata across the operators *)


(** C9. An operator that derives a new instance copies [decimal_places]
    and nothing else: whatever the [format_options] of the operands, the
    result's [format_options] is [None], as on any instance built without
    them (and so is its [use_l10n]). *)
Theorem format_options_not_propagated h a ma op :
  h !! a = Some (OMoney ma) -> klass ma = DjMoney -> applicable h ma op ->
  derives (run a op) h (fun r => format_options r = None /\ use_l10n r = None).
Proof.
  intros Ha Hk Hop.
  apply (derives_impl _ _ _ _ (run_derives h a ma op Ha Hk Hop)).
  by intros r (_ & Hf & Hu & _).
Qed.


(** ** Operands that are query expressions *)

(** C7. When the other operand is a [Combinable], [a + other] is exactly
    [other.__radd__(a.amount)]: the value returned is that expression, no
    instance of [Money] is created and no attribute is copied (the heap is
    left as it was).  [-], [*] and [/] hand over to [__rsub__], [__rmul__]
    and [__rtruediv__] in the same way. *)
Theorem combinable_operand_delegates h a ma e :
  h !! a = Some (OMoney ma) ->
  Money___add__ env a (PyExpr e) h
  = (Ok (PyExpr (Combinable___radd__ e (amount ma))), h)
  /\ Money___sub__ env a (PyExpr e) h
     = (Ok (PyExpr (Combinable___rsub__ e (amount ma))), h)
  /\ Money___mul__ env a (PyExpr e) h
     = (Ok (PyExpr (Combinable___rmul__ e (amount ma))), h)
  /\ Money___truediv__ env a (PyExpr e) h
     = (Ok (PyExpr (Combinable___rtruediv__ e (amount ma))), h).
Proof.
  intros Ha.
  repeat split; cbn [Money___add__ Money___sub__ Money___mul__ Money___truediv__];
    by rewrite (bind_ok _ _ _ _ _ (load_self_ok _ _ _ Ha)).
Qed.

(** C3. The reflected division hook, which Python calls for [x / m] with a
    number [x] and an instance [m], raises [TypeError] whatever [x] and [m]
    are.  The exception is raised by the hook itself, which neither calls
    the parent class nor touches the heap. *)
Theorem rtruediv_always_raises (m : nat) (x : pyvalue) (h : list obj) :
  Money___rtruediv__ m x h
  = (Raise (TypeError "Cannot divide non-Money by a Money instance."), h).
Proof. reflexivity. Qed.

(** ** Division *)


Lemma run_truediv_money_raises h a b ma mb e :
  h !! a = Some (OMoney ma) -> h !! b = Some (OMoney mb) ->
  currency ma = currency mb -> dec_div (amount ma) (amount mb) = Raise e ->
  Money___truediv__ env a (PyRef b) h = (Raise e, h).
Proof.
  intros Ha Hb Hc Hq. unfold Money___truediv__, DefaultMoney___truediv__.
  unfold isinstance_Money at 1, bind at 2, bind at 1.
  rewrite (money_of_ref _ _ _ Hb).
  rewrite (bind_ok _ _ _ _ _ (load_self_ok _ _ _ Ha)).
  rewrite decide_False by auto.
  unfold lift, bind at 1. by rewrite Hq.
Qed.

(** Dividing by an instance whose amount is zero raises what the decimal
    library raises. *)
Lemma truediv_by_zero_amount_raises h a b ma mb :
  h !! a = Some (OMoney ma) -> h !! b = Some (OMoney mb) ->
  currency ma = currency mb -> dec_eqb (amount mb) (dec_of_Z 0) = true ->
  exists e, Money___truediv__ env a (PyRef b) h = (Raise e, h).
Proof.
  intros Ha Hb Hc Hz.
  destruct (dec_div (amount ma) (amount mb)) as [q|e] eqn:Hq.
  - pose proof (dec_div_zero (amount ma) _ Hz) as Hno.
    rewrite Hq in Hno. discriminate.
  - exists e. by apply (run_truediv_money_raises h a b ma mb).
Qed.


(** ** Zero as the other operand of [+] *)

Lemma propagate_self m : propagate [decimal_places m; None] m = m.
Proof.
  unfold propagate. destruct m as [k x c [d|] f u]; done.
Qed.

(** With auto-conversion off, [m + 0] and [0 + m] are [m] itself,
    untouched. *)
Lemma add_zero_identity h a ma :
  h !! a = Some (OMoney ma) -> AUTO_CONVERT_MONEY env = false ->
  Money___add__ env a (PyInt 0) h = (Ok (PyRef a), h)
  /\ Money___radd__ env a (PyInt 0) h = (Ok (PyRef a), h).
Proof.
  intros Ha Hoff.
  assert (Hadd : Money___add__ env a (PyInt 0) h = (Ok (PyRef a), h)).
  { unfold Money___add__.
    rewrite (bind_ok _ _ _ _ _ (load_self_ok _ _ _ Ha)).
    rewrite (bind_ok _ _ _ _ _ (maybe_convert_off _ _ _ Hoff)).
    unfold DefaultMoney___add__. cbn [eq_zero Z.eqb]. unfold ret at 1, bind at 1.
    rewrite (bind_ok _ _ _ _ _ (copy_attributes_at _ _ _ _ _ Ha)).
    rewrite (getattr_decimal_places_ref _ _ _ Ha).
    change (getattr_decimal_places h (PyInt 0)) with (@None Z).
    by rewrite propagate_self, list_insert_id. }
  by split.
Qed.

(** C10, on the failing input.  With [AUTO_CONVERT_MONEY] enabled,
    [maybe_convert] reads [value.currency] of the operand [0], which an
    [int] does not have: [m + 0] and [0 + m] raise [AttributeError] instead
    of returning [m]. *)
Theorem add_zero_raises_when_auto_convert h a ma :
  h !! a = Some (OMoney ma) -> AUTO_CONVERT_MONEY env = true ->
  Money___add__ env a (PyInt 0) h = (Raise (AttributeError "currency"), h)
  /\ Money___radd__ env a (PyInt 0) h = (Raise (AttributeError "currency"), h).
Proof.
  intros Ha Hon.
  assert (Hadd : Money___add__ env a (PyInt 0) h
                 = (Raise (AttributeError "currency"), h)).
  { unfold Money___add__.
    rewrite (bind_ok _ _ _ _ _ (load_self_ok _ _ _ Ha)).
    unfold maybe_convert. by rewrite Hon. }
  by split.
Qed.

(** ** Currency conversion *)

(** The environment with another auto-conversion flag and another
    conversion service. *)
Definition with_conversion (flag : bool)
    (conv : pyvalue -> string -> M pyvalue) : Env :=
  mkEnv (DECIMAL_PLACES env) (MONEY_FORMAT env) flag (USE_L10N env)
    (LANGUAGE_CODE env) (get_language env) (to_locale env) conv
    (format_money env).

(** C2, amended.  [+] and [-] convert a money operand of another currency
    to the currency of [a] when auto-conversion is enabled, and give the
    converted operand to the parent's operator and to [_copy_attributes].
    [*], [/] and the reflected [%] never convert: whatever the flag and the
    conversion service, they compute the same. *)
Theorem conversion_only_in_add_and_sub h a ma :
  h !! a = Some (OMoney ma) ->
  (forall other mo,
     money_of h other = Some mo ->
     AUTO_CONVERT_MONEY env = true -> currency mo <> currency ma ->
     Money___add__ env a other h
     = (let* converted := convert_money env other (currency ma) in
        let* result := DefaultMoney___add__ env a converted in
        Money__copy_attributes a converted result;; ret result) h
     /\ Money___sub__ env a other h
        = (let* converted := convert_money env other (currency ma) in
           let* result := DefaultMoney___sub__ env a converted in
           Money__copy_attributes a converted result;; ret result) h)
  /\ (forall other flag conv,
        Money___mul__ (with_conversion flag conv) a other h
        = Money___mul__ env a other h
        /\ Money___truediv__ (with_conversion flag conv) a other h
           = Money___truediv__ env a other h
        /\ Money___rmod__ (with_conversion flag conv) a other h
           = Money___rmod__ env a other h).
Proof.
  intros Ha. split.
  - intros other mo Ho Hon Hne.
    assert (Hconv : maybe_convert env other (currency ma) h
                    = convert_money env other (currency ma) h).
    { unfold maybe_convert, getattr_currency. rewrite Hon. unfold bind.
      rewrite Ho. by rewrite decide_True. }
    destruct other; try discriminate.
    split; cbn [Money___add__ Money___sub__];
      rewrite (bind_ok _ _ _ _ _ (load_self_ok _ _ _ Ha));
      unfold bind at 1; symmetry; unfold bind at 1; by rewrite Hconv.
  - intros other flag conv. unfold with_conversion. by destruct env.
Qed.


(** ** The format options of an instance *)

Lemma run_init h amount c dps mapping items x :
  h !! mapping = Some (ODict items) -> force_decimal amount = Ok x ->
  Money___init__ env amount c dps (Some mapping) h
  = (Ok (length h),
     h ++ [OMoney (mkMoney DjMoney x c (default (Some (DECIMAL_PLACES env)) dps)
                     (Some (MappingProxy mapping)) None)]).
Proof.
  intros Hd Hx. unfold Money___init__.
  assert (Hp : MappingProxyType mapping h = (Ok (MappingProxy mapping), h)).
  { unfold MappingProxyType. by rewrite Hd. }
  rewrite (bind_ok _ _ _ (Some (MappingProxy mapping)) h).
  - unfold lift, bind at 1. by rewrite Hx.
  - by rewrite (bind_ok _ _ _ _ _ Hp).
Qed.

Lemma run_setitem h d items key value :
  h !! d = Some (ODict items) ->
  dict___setitem__ d key value h
  = (Ok tt, <[d := ODict (<[key := value]> items)]> h).
Proof. unfold dict___setitem__. by intros ->. Qed.

(** C5, amended.  The [format_options] of an instance built from a mapping
    is a read-only view of that mapping, not a copy: an item cannot be set
    or deleted through it ([TypeError], the heap left as it was), and when
    the caller later writes to the mapping the instance, itself unchanged,
    shows the mapping's new content. *)
Theorem format_options_is_read_only_view h amount c dps mapping items x :
  h !! mapping = Some (ODict items) -> force_decimal amount = Ok x ->
  exists m h1,
    Money___init__ env amount c dps (Some mapping) h = (Ok (length h), h1)
    /\ h1 !! length h = Some (OMoney m)
    /\ format_options m = Some (MappingProxy mapping)
    /\ mappingproxy_items h1 (MappingProxy mapping) = items
    /\ (forall key value h',
          mappingproxy___setitem__ (MappingProxy mapping) key value h'
          = (Raise (TypeError "'mappingproxy' object does not support item assignment"), h')
          /\ mappingproxy___delitem__ (MappingProxy mapping) key h'
             = (Raise (TypeError "'mappingproxy' object does not support item deletion"), h'))
    /\ (forall key value,
          exists h2,
            dict___setitem__ mapping key value h1 = (Ok tt, h2)
            /\ h2 !! length h = Some (OMoney m)
            /\ mappingproxy_items h2 (MappingProxy mapping) = <[key := value]> items).
Proof.
  intros Hd Hx.
  assert (Hlt : (mapping < length h)%nat) by by eapply lookup_lt_Some.
  eexists _, _. split; [by apply (run_init h amount c dps mapping items x)|].
  split; [apply lookup_new|]. split; [done|].
  split; [unfold mappingproxy_items; by rewrite (lookup_old _ _ _ _ Hd)|].
  split; [done|].
  intros key value. eexists. split.
  { apply (run_setitem _ _ items). by apply lookup_old. }
  split.
  - rewrite list_lookup_insert_ne by lia. apply lookup_new.
  - unfold mappingproxy_items. rewrite list_lookup_insert_eq; [done|].
    rewrite length_app. lia.
Qed.

(** ** Rendering *)

Lemma lookup_merged (instance defaults : gmap string fval) key :
  (instance ∪ defaults) !! key
  = match instance !! key with Some v => Some v | None => defaults !! key end.
Proof.
  rewrite lookup_union. destruct (instance !! key), (defaults !! key); done.
Qed.

(** The items of the instance's own [format_options], none when it has no
    mapping. *)
Definition instance_options (h : list obj) (m : Money) : gmap string fval :=
  match format_options m with
  | Some p => mappingproxy_items h p
  | None => ∅
  end.

Lemma merged_format_options_union h m :
  merged_format_options env h m = instance_options h m ∪ MONEY_FORMAT env.
Proof.
  unfold merged_format_options, instance_options.
  destruct (format_options m); [done|]. by rewrite (left_id_L ∅ (∪)).
Qed.

(** C8, amended.  [__str__] gives [format_money] the merge of
    [MONEY_FORMAT] with the instance's [format_options], in which the
    instance's entries win and the defaults fill the gaps, after setting
    its key ["locale"] to the current locale whenever that locale is not
    empty.  With the defaults [{"symbol": True, "grouping": True}] and the
    instance options [{"symbol": False}] the merge is
    [{"symbol": False, "grouping": True}]. *)
Theorem str_merges_format_options h a ma :
  h !! a = Some (OMoney ma) ->
  let merged := instance_options h ma ∪ MONEY_FORMAT env in
  let locale := get_current_locale env in
  let kwargs := if truthy locale then <["locale" := FStr locale]> merged else merged in
  Money___str__ env a h = (Ok (format_money env ma kwargs), h)
  /\ (forall key,
        merged !! key
        = match instance_options h ma !! key with
          | Some v => Some v
          | None => MONEY_FORMAT env !! key
          end)
  /\ (forall key, key <> "locale" -> kwargs !! key = merged !! key)
  /\ (truthy locale = true -> kwargs !! "locale" = Some (FStr locale))
  /\ (MONEY_FORMAT env = <["symbol" := FBool true]> {["grouping" := FBool true]} ->
      instance_options h ma = {["symbol" := FBool false]} ->
      merged = <["symbol" := FBool false]> {["grouping" := FBool true]}).
Proof.
  intros Ha merged locale kwargs. repeat split.
  - unfold Money___str__, Money_str_kwargs.
    rewrite (bind_ok _ _ _ _ _ (load_self_ok _ _ _ Ha)).
    unfold bind at 1. rewrite (bind_ok _ _ _ _ _ (load_self_ok _ _ _ Ha)).
    by rewrite merged_format_options_union.
  - intros key. apply lookup_merged.
  - intros key Hkey. unfold kwargs. destruct (truthy locale); [|done].
    by rewrite lookup_insert_ne.
  - intros Ht. unfold kwargs. rewrite Ht. by rewrite lookup_insert_eq.
  - intros Hdef Hinst. unfold merged. rewrite Hdef, Hinst.
    apply map_eq. intros key. rewrite lookup_merged.
    destruct (decide (key = "symbol")) as [->|Hne]; [done|].
    rewrite lookup_singleton_ne by done. by rewrite !(lookup_insert_ne _ "symbol").
Qed.

End Properties.

(** * A concrete shop: instances for the examples *)

(** [django.utils.translation.to_locale]: a language name ([en-us]) turned
    into a locale name ([en_US]). *)
Module Django.

Definition is_lower (c : ascii) : bool :=
  let n := nat_of_ascii c in (97 <=? n)%nat && (n <=? 122)%nat.
Definition is_upper (c : ascii) : bool :=
  let n := nat_of_ascii c in (65 <=? n)%nat && (n <=? 90)%nat.
Definition lower_char (c : ascii) : ascii :=
  if is_upper c then ascii_of_nat (nat_of_ascii c + 32) else c.
Definition upper_char (c : ascii) : ascii :=
  if is_lower c then ascii_of_nat (nat_of_ascii c - 32) else c.

Fixpoint map_string (f : ascii -> ascii) (s : string) : string :=
  match s with
  | EmptyString => EmptyString
  | String c s' => String (f c) (map_string f s')
  end.

Definition lower : string -> string := map_string lower_char.
Definition upper : string -> string := map_string upper_char.

(** [str.title]: a letter after a letter in lower case, any other letter
    in upper case. *)
Fixpoint title_from (after_letter : bool) (s : string) : string :=
  match s with
  | EmptyString => EmptyString
  | String c s' =>
      let letter := is_lower c || is_upper c in
      String (if after_letter then lower_char c else upper_char c)
             (title_from letter s')
  end.
Definition title : string -> string := title_from false.

(** [s.partition("-")]: the text before the first dash and the text
    after it ([None] when there is no dash). *)
Fixpoint partition_dash (s : string) : string * option string :=
  match s with
  | EmptyString => (EmptyString, None)
  | String c s' =>
      if Ascii.eqb c "-" then (EmptyString, Some s')
      else let '(before, after) := partition_dash s' in (String c before, after)
  end.

Definition to_locale (language : string) : string :=
  match partition_dash (lower language) with
  | (lang, Some country) =>
      if String.eqb country "" then
        (lower (substring 0 3 language)
         ++ substring 3 (String.length language - 3) language)%string
      else
        let '(country, tail) := partition_dash country in
        let country :=
          if (2 <? String.length country)%nat then title country
          else upper country in
        let country :=
          match tail with
          | Some t => if String.eqb t "" then country
                      else (country ++ "-" ++ t)%string
          | None => country
          end in
        (lang ++ "_" ++ country)%string
  | (_, None) =>
      (lower (substring 0 3 language)
       ++ substring 3 (String.length language - 3) language)%string
  end.

Example to_locale_en_us : to_locale "en-us" = "en_US"%string.
Proof. reflexivity. Qed.

Example to_locale_sr_latn : to_locale "sr-latn" = "sr_Latn"%string.
Proof. reflexivity. Qed.

Example to_locale_language_only : to_locale "de" = "de"%string.
Proof. reflexivity. Qed.

End Django.

Module Examples.
Import QDecimal.

(** A conversion service with one fixed rate: a euro is two dollars.  As
    [convert_money] does, it builds a new instance of the operand's class
    in the target currency. *)
Definition get_rate (source target : string) : option Q :=
  if String.eqb source "EUR" && String.eqb target "USD" then Some (2 # 1)
  else None.

Definition convert_money (value : pyvalue) (target : string) : M pyvalue :=
  fun h =>
    match money_of h value with
    | Some m =>
        match get_rate (currency m) target with
        | Some rate =>
            (Ok (PyRef (length h)),
             h ++ [OMoney (mkMoney (klass m) (dec_mul (amount m) rate) target
                             (Some 2) None None)])
        | None => (Raise (ExternalError "MissingRate"), h)
        end
    | None => (Raise (AttributeError "amount"), h)
    end.

(** Settings with the default format options
    [{"symbol": True, "grouping": True}]; [auto] is [AUTO_CONVERT_MONEY]. *)
Definition shop (auto : bool) : Env :=
  mkEnv 2 (<["symbol" := FBool true]> {["grouping" := FBool true]}) auto true
    "en-us" None Django.to_locale convert_money
    (fun _ _ => "10.25 USD"%string).

Definition money (x : Q) (c : string) (places : option Z)
    (options : option mappingproxy) : Money :=
  mkMoney DjMoney x c places options None.

Definition ten := money (41 # 4) "USD" (Some 2) (Some (MappingProxy 4)).
Definition five := money (5 # 1) "USD" (Some 4) None.
Definition euros := money (5 # 1) "EUR" (Some 7) None.
Definition nothing := money (0 # 1) "USD" (Some 2) None.

(** Four instances and the dict [{"symbol": False}] that [ten] was built
    with. *)
Definition objects : list obj :=
  [OMoney ten; OMoney five; OMoney euros; OMoney nothing;
   ODict {["symbol" := FBool false]}].

(** An instance that asks for the German locale in its own options. *)
Definition german_objects : list obj :=
  [OMoney (money (1 # 1) "EUR" (Some 2) (Some (MappingProxy 1)));
   ODict {["locale" := FStr "de_DE"]}].

End Examples.

Module Witnesses.
Import QDecimal Examples.


Lemma format_options_not_propagated_witness :
  derives (run (shop false) 0 (Add 1)) objects
    (fun r => format_options r = None /\ use_l10n r = None).
Proof.
  apply (format_options_not_propagated (shop false) objects 0 ten (Add 1));
    [reflexivity|reflexivity|].
  exists five. repeat split.
Defined.


Lemma combinable_operand_delegates_witness :
  Money___add__ (shop false) 0 (PyExpr (F "price")) objects
  = (Ok (PyExpr (CombinedExpression (Value (DecimalConst (41 # 4))) ADD (F "price"))),
     objects).
Proof.
  apply (combinable_operand_delegates (shop false) objects 0 ten (F "price")).
  reflexivity.
Defined.


Lemma add_zero_raises_when_auto_convert_witness :
  Money___add__ (shop true) 0 (PyInt 0) objects
  = (Raise (AttributeError "currency"), objects)
  /\ Money___radd__ (shop true) 0 (PyInt 0) objects
     = (Raise (AttributeError "currency"), objects).
Proof.
  apply (add_zero_raises_when_auto_convert (shop true) objects 0 ten); reflexivity.
Defined.

Lemma conversion_only_in_add_and_sub_witness :
  Money___add__ (shop true) 0 (PyRef 2) objects
  = (Ok (PyRef 6),
     objects ++ [OMoney (money (10 # 1) "USD" (Some 2) None);
                 OMoney (money (81 # 4) "USD" (Some 2) None)])
  /\ Money___mul__ (shop true) 0 (PyInt 2) objects
     = Money___mul__ (shop false) 0 (PyInt 2) objects.
Proof.
  destruct (conversion_only_in_add_and_sub (shop true) objects 0 ten eq_refl)
    as [Hconv Hsame].
  split.
  - assert (Hne : currency euros <> currency ten) by discriminate.
    destruct (Hconv (PyRef 2) euros eq_refl eq_refl Hne) as [-> _].
    reflexivity.
  - destruct (Hsame (PyInt 2) false convert_money) as [<- _]. reflexivity.
Defined.

Lemma format_options_is_read_only_view_witness :
  exists m h1,
    Money___init__ (shop false) (PyInt 1) "USD" None (Some 4%nat) objects
    = (Ok 5%nat, h1)
    /\ h1 !! 5%nat = Some (OMoney m)
    /\ mappingproxy_items h1 (MappingProxy 4) = {["symbol" := FBool false]}
    /\ mappingproxy___setitem__ (MappingProxy 4) "symbol" (FBool true) h1
       = (Raise (TypeError "'mappingproxy' object does not support item assignment"), h1).
Proof.
  destruct (format_options_is_read_only_view (shop false) objects (PyInt 1) "USD"
              None 4 {["symbol" := FBool false]} (1 # 1) eq_refl eq_refl)
    as (m & h1 & Hinit & Hm & _ & Hitems & Hro & _).
  exists m, h1. split; [exact Hinit|]. split; [exact Hm|].
  split; [exact Hitems|]. apply Hro.
Defined.

Lemma str_merges_format_options_witness :
  Money___str__ (shop false) 0 objects = (Ok "10.25 USD"%string, objects)
  /\ instance_options objects ten ∪ MONEY_FORMAT (shop false)
     = <["symbol" := FBool false]> {["grouping" := FBool true]}.
Proof.
  destruct (str_merges_format_options (shop false) objects 0 ten eq_refl)
    as (Hstr & _ & _ & _ & Hexample).
  split; [exact Hstr|]. apply Hexample; reflexivity.
Defined.

(** [Money(10, "USD", decimal_places=2) + Money(5, "USD")]: amount 15,
    currency USD, two decimal places. *)
Example addition_of_ten_and_five :
  (let* a := Money___init__ (shop false) (PyInt 10) "USD" (Some (Some 2)) None in
   let* b := Money___init__ (shop false) (PyInt 5) "USD" None None in
   Money___add__ (shop false) a (PyRef b)) []
  = (Ok (PyRef 2),
     [OMoney (money (10 # 1) "USD" (Some 2) None);
      OMoney (money (5 # 1) "USD" (Some 2) None);
      OMoney (money (15 # 1) "USD" (Some 2) None)]).
Proof. reflexivity. Qed.

(** [sum([m])] with auto-conversion off: [0 + m] is [m]. *)
Example zero_plus_ten :
  Money___radd__ (shop false) 0 (PyInt 0) objects = (Ok (PyRef 0), objects).
Proof. apply (add_zero_identity (shop false) objects 0 ten); reflexivity. Qed.

End Witnesses.

(** * Where the code departs from the stated behaviour *)

Module Counterexamples.
Import QDecimal Examples.


(** With auto-conversion enabled, dividing dollars by euros does not
    convert the euros: the parent's operator gets the euros and refuses
    them, where it would have returned a ratio for the converted operand.
    Nor does [*] call the conversion service: for euros times dollars the
    service, asked first, would have failed for want of a rate, and it is
    the parent's [TypeError] that comes out. *)
Lemma truediv_and_mul_do_not_convert :
  AUTO_CONVERT_MONEY (shop true) = true
  /\ Money___truediv__ (shop true) 0 (PyRef 2) objects
     = (Raise (TypeError "Cannot divide two different currencies."), objects)
  /\ fst ((let* converted := convert_money (PyRef 2) "USD" in
           DefaultMoney___truediv__ (shop true) 0 converted) objects)
     = Ok (PyDecimal (41 # 40))
  /\ Money___mul__ (shop true) 2 (PyRef 0) objects
     = (Raise (TypeError "Cannot multiply two Money instances."), objects)
  /\ fst ((let* converted := convert_money (PyRef 0) "EUR" in
           DefaultMoney___mul__ (shop true) 2 converted) objects)
     = Raise (ExternalError "MissingRate").
Proof. repeat split. Qed.

(** The caller's later write to the mapping shows through the instance's
    [format_options]: it is no snapshot. *)
Lemma format_options_follow_the_mapping :
  exists m h1 h2,
    Money___init__ (shop false) (PyInt 1) "USD" None (Some 4%nat) objects
    = (Ok 5%nat, h1)
    /\ h1 !! 5%nat = Some (OMoney m)
    /\ format_options m = Some (MappingProxy 4)
    /\ mappingproxy_items h1 (MappingProxy 4) !! "symbol" = Some (FBool false)
    /\ dict___setitem__ 4 "symbol" (FBool true) h1 = (Ok tt, h2)
    /\ h2 !! 5%nat = Some (OMoney m)
    /\ mappingproxy_items h2 (MappingProxy 4) !! "symbol" = Some (FBool true).
Proof. eexists _, _, _. repeat split. Qed.

(** Instance options [{"symbol": False}] over the defaults
    [{"symbol": True, "grouping": True}]: what [format_money] receives is
    not the merge [{"symbol": False, "grouping": True}] but that merge with
    the locale added.  And an instance whose own options hold a
    ["locale"] loses it to the current locale. *)
Lemma str_kwargs_include_the_locale :
  (MONEY_FORMAT (shop false) = <["symbol" := FBool true]> {["grouping" := FBool true]}
   /\ instance_options objects ten = {["symbol" := FBool false]}
   /\ Money_str_kwargs (shop false) 0 objects
      = (Ok (<["locale" := FStr "en_US"]>
               (<["symbol" := FBool false]> {["grouping" := FBool true]})),
         objects)
   /\ <["locale" := FStr "en_US"]>
        (<["symbol" := FBool false]> {["grouping" := FBool true]})
      <> (<["symbol" := FBool false]> {["grouping" := FBool true]} : gmap string fval))
  /\ (exists m kwargs,
        german_objects !! 0%nat = Some (OMoney m)
        /\ instance_options german_objects m !! "locale" = Some (FStr "de_DE")
        /\ Money_str_kwargs (shop false) 0 german_objects = (Ok kwargs, german_objects)
        /\ kwargs !! "locale" = Some (FStr "en_US")).
Proof.
  split.
  - repeat split. intros Heq.
    apply (f_equal (fun opts : gmap string fval => opts !! "locale")) in Heq.
    discriminate Heq.
  - eexists _, _. repeat split.
Qed.

End Counterexamples.

(** * Further properties of the module *)

Section Coverage.
Context `{DecimalLib} (env : Env).
Implicit Types (h : list obj) (m : Money) (v : pyvalue) (l : nat).

(** ** [_copy_attributes] *)

(** X1. [_copy_attributes] on a target that is a money instance assigns its
    [decimal_places] and nothing else: class, amount, currency,
    [format_options] and [use_l10n] of the target stay, no object is
    created, and every other object is left as it was. *)
Theorem copy_attributes_changes_only_decimal_places h self source l mt :
  h !! l = Some (OMoney mt) ->
  exists mt',
    Money__copy_attributes self source (PyRef l) h
    = (Ok tt, <[l := OMoney mt']> h)
    /\ klass mt' = klass mt /\ amount mt' = amount mt
    /\ currency mt' = currency mt
    /\ format_options mt' = format_options mt /\ use_l10n mt' = use_l10n mt
    /\ length (<[l := OMoney mt']> h) = length h
    /\ (forall l', l' <> l -> <[l := OMoney mt']> h !! l' = h !! l').
Proof.
  intros Hl. eexists. split; [by apply copy_attributes_at|].
  rewrite klass_propagate, amount_propagate, currency_propagate,
    format_options_propagate, use_l10n_propagate, length_insert.
  repeat split. intros l' Hne. by rewrite list_lookup_insert_ne.
Qed.

(** X2. The value [_copy_attributes] assigns is the maximum of the defined
    decimal places of [self] and of the source: it bounds both and is one
    of them, whatever the target had before; when neither is defined the
    target keeps what it had. *)
Theorem copy_attributes_takes_the_maximum h self source l mt :
  h !! l = Some (OMoney mt) ->
  exists mt',
    Money__copy_attributes self source (PyRef l) h
    = (Ok tt, <[l := OMoney mt']> h)
    /\ match getattr_decimal_places h (PyRef self),
             getattr_decimal_places h source with
       | None, None => decimal_places mt' = decimal_places mt
       | ds, dp =>
           exists d,
             decimal_places mt' = Some d
             /\ (forall x, ds = Some x -> x <= d)
             /\ (forall y, dp = Some y -> y <= d)
             /\ (ds = Some d \/ dp = Some d)
       end.
Proof.
  intros Hl. eexists. split; [by apply copy_attributes_at|].
  rewrite decimal_places_propagate.
  destruct (getattr_decimal_places h (PyRef self)) as [x|],
    (getattr_decimal_places h source) as [y|]; cbn.
  - exists (Z.max x y). unfold py_max; cbn. split; [done|].
    split; [intros ? [= <-]; lia|]. split; [intros ? [= <-]; lia|].
    destruct (Z.max_spec x y) as [[_ ->]|[_ ->]]; auto.
  - exists x. repeat split; try done. + by intros ? [= <-]. + by left.
  - exists y. repeat split; try done. + by intros ? [= <-]. + by right.
  - done.
Qed.

(** ** Operands the parent class refuses *)

Lemma base_add_other_currency h a b ma mb :
  h !! a = Some (OMoney ma) -> h !! b = Some (OMoney mb) ->
  currency ma <> currency mb ->
  DefaultMoney___add__ env a (PyRef b) h
  = (Raise (TypeError
       "Cannot add or subtract two Money instances with different currencies."), h).
Proof.
  intros Ha Hb Hc. unfold DefaultMoney___add__. cbn [eq_zero].
  unfold isinstance_Money at 1. unfold bind at 1.
  rewrite (money_of_ref _ _ _ Hb).
  rewrite (bind_ok _ _ _ _ _ (load_self_ok _ _ _ Ha)).
  by rewrite decide_False.
Qed.

Lemma bind_raise {A B} (c : M A) (k : A -> M B) h e h' :
  c h = (Raise e, h') -> bind c k h = (Raise e, h').
Proof. unfold bind. by intros ->. Qed.

Lemma add_other_currency h a b ma mb :
  h !! a = Some (OMoney ma) -> h !! b = Some (OMoney mb) ->
  currency ma <> currency mb -> AUTO_CONVERT_MONEY env = false ->
  Money___add__ env a (PyRef b) h
  = (Raise (TypeError
       "Cannot add or subtract two Money instances with different currencies."), h).
Proof.
  intros Ha Hb Hc Hoff. unfold Money___add__.
  rewrite (bind_ok _ _ _ _ _ (load_self_ok _ _ _ Ha)).
  rewrite (bind_ok _ _ _ _ _ (maybe_convert_off _ _ _ _ Hoff)).
  by rewrite (bind_raise _ _ _ _ _ (base_add_other_currency _ _ _ _ _ Ha Hb Hc)).
Qed.

(** X3. With auto-conversion off, adding or subtracting an instance of
    another currency raises the parent's [TypeError].  [+] leaves the heap
    as it was; [-] has by then built the negated operand, one new object,
    and changed nothing else. *)
Theorem add_and_sub_refuse_another_currency h a b ma mb :
  h !! a = Some (OMoney ma) -> klass ma = DjMoney ->
  h !! b = Some (OMoney mb) -> klass mb = DjMoney ->
  currency ma <> currency mb -> AUTO_CONVERT_MONEY env = false ->
  let refused :=
    TypeError "Cannot add or subtract two Money instances with different currencies." in
  Money___add__ env a (PyRef b) h = (Raise refused, h)
  /\ exists negated,
       Money___sub__ env a (PyRef b) h = (Raise refused, h ++ [OMoney negated]).
Proof.
  intros Ha Hk Hb Hkb Hc Hoff refused. split; [by apply (add_other_currency h a b ma mb)|].
  eexists. unfold Money___sub__.
  rewrite (bind_ok _ _ _ _ _ (load_self_ok _ _ _ Ha)).
  rewrite (bind_ok _ _ _ _ _ (maybe_convert_off _ _ _ _ Hoff)).
  apply bind_raise. unfold DefaultMoney___sub__.
  assert (Hneg : py_neg env (PyRef b) h
                 = (Ok (PyRef (length h)),
                    h ++ [OMoney (derived env mb (decimal_places mb) (dec_neg (amount mb)))])).
  { unfold py_neg, isinstance_Money. unfold bind at 1.
    rewrite (money_of_ref _ _ _ Hb), Hkb. apply (run_neg env h b mb Hb Hkb). }
  rewrite (bind_ok _ _ _ _ _ Hneg). unfold call___add__.
  rewrite (bind_ok _ _ _ _ _ (load_self_ok _ _ _ (lookup_old _ _ _ _ Ha))).
  rewrite Hk.
  apply (add_other_currency _ a (length h) ma _
           (lookup_old _ _ _ _ Ha) (lookup_new _ _)); [|done].
  unfold derived. by rewrite currency_propagate.
Qed.

(** X4. [*], its reflected form and the reflected [%] refuse a money
    instance as their other operand with a [TypeError], whatever the
    currencies and the auto-conversion flag, and create nothing. *)
Theorem mul_and_rmod_refuse_money h a other mo :
  money_of h other = Some mo ->
  Money___mul__ env a other h
  = (Raise (TypeError "Cannot multiply two Money instances."), h)
  /\ Money___rmul__ env a other h
     = (Raise (TypeError "Cannot multiply two Money instances."), h)
  /\ Money___rmod__ env a other h
     = (Raise (TypeError "Invalid __rmod__ operation"), h).
Proof.
  intros Ho.
  assert (Hmul : Money___mul__ env a other h
                 = (Raise (TypeError "Cannot multiply two Money instances."), h)).
  { destruct other; try discriminate. cbn [Money___mul__].
    apply bind_raise. unfold DefaultMoney___mul__, isinstance_Money.
    unfold bind. by rewrite Ho. }
  split; [done|]. split; [done|].
  unfold Money___rmod__. apply bind_raise.
  unfold DefaultMoney___rmod__, isinstance_Money. unfold bind. by rewrite Ho.
Qed.

(** X5. Dividing by an instance of another currency raises [TypeError]
    whether or not auto-conversion is enabled, and creates nothing. *)
Theorem truediv_refuses_another_currency h a b ma mb :
  h !! a = Some (OMoney ma) -> h !! b = Some (OMoney mb) ->
  currency ma <> currency mb ->
  Money___truediv__ env a (PyRef b) h
  = (Raise (TypeError "Cannot divide two different currencies."), h).
Proof.
  intros Ha Hb Hc. unfold Money___truediv__. apply bind_raise.
  unfold DefaultMoney___truediv__, isinstance_Money. unfold bind at 1.
  rewrite (money_of_ref _ _ _ Hb).
  rewrite (bind_ok _ _ _ _ _ (load_self_ok _ _ _ Ha)).
  by rewrite decide_True.
Qed.

(** X6. Dividing an instance by a number equal to zero raises what the
    decimal library raises for that division; no instance is created. *)
Theorem truediv_by_zero_number_raises h a ma n d :
  h !! a = Some (OMoney ma) ->
  force_decimal n = Ok d -> dec_eqb d (dec_of_Z 0) = true ->
  exists e, dec_div (amount ma) d = Raise e
            /\ Money___truediv__ env a n h = (Raise e, h).
Proof.
  intros Ha Hn Hz. destruct (force_decimal_number _ _ Hn) as (Hm & _ & _).
  destruct (dec_div (amount ma) d) as [q|e] eqn:Hq.
  { pose proof (dec_div_zero (amount ma) _ Hz) as Hno.
    rewrite Hq in Hno. discriminate. }
  exists e. split; [done|].
  assert (Hbase : DefaultMoney___truediv__ env a n h = (Raise e, h)).
  { unfold DefaultMoney___truediv__, isinstance_Money. unfold bind at 1.
    rewrite Hm. unfold lift, bind at 1. rewrite Hn.
    rewrite (bind_ok _ _ _ _ _ (load_self_ok _ _ _ Ha)).
    unfold bind. by rewrite Hq. }
  destruct n; try discriminate; cbn [Money___truediv__]; by apply bind_raise.
Qed.

(** ** The amounts the operators compute *)

(** The amount of the instance that [op] derives from [a]: the parent
    class computes it from the amounts of the operands. *)
Definition computes (h : list obj) (ma : Money) (op : operation) (x : Decimal) : Prop :=
  match op with
  | Add b =>
      exists mb, h !! b = Some (OMoney mb) /\ x = dec_add (amount ma) (amount mb)
  | Sub b =>
      exists mb, h !! b = Some (OMoney mb)
                 /\ x = dec_add (amount ma) (dec_neg (amount mb))
  | Mul n => exists d, force_decimal n = Ok d /\ x = dec_mul (amount ma) d
  | Truediv n => exists d, force_decimal n = Ok d /\ dec_div (amount ma) d = Ok x
  | Rmod n =>
      exists d, force_decimal n = Ok d
                /\ dec_div (dec_mul d (amount ma)) (dec_of_Z 100) = Ok x
  | Pos => x = amount ma
  | Neg => x = dec_neg (amount ma)
  | Abs => x = dec_abs (amount ma)
  | Round__ n => rounded (amount ma) n = Ok x
  | Round ndigits => dec_quantize (amount ma) (default 0 ndigits) = Ok x
  end.

Lemma amount_derived ma d x : amount (derived env ma d x) = x.
Proof. unfold derived. by rewrite amount_propagate. Qed.

Lemma klass_derived ma d x : klass (derived env ma d x) = DjMoney.
Proof. unfold derived. by rewrite klass_propagate. Qed.

(** X7. The amount of the instance an operator derives is the one the
    parent class computes from the amounts of the operands: the sum for
    [+], the sum with the negated operand for [-], the product and the
    quotient by the number for [*] and [/], [number * amount / 100] for
    the reflected [%], the amount itself, its negation and its absolute
    value for the unary operators, the rounded amount for rounding. *)
Theorem operators_compute_on_amounts h a ma op :
  h !! a = Some (OMoney ma) -> klass ma = DjMoney -> applicable h ma op ->
  derives (run env a op) h (fun r => computes h ma op (amount r)).
Proof.
  intros Ha Hk Hop. destruct op as [b|b|n|n|n| | | |n|nd]; simpl in Hop.
  - destruct Hop as (mb & Hb & _ & Hc).
    eapply derives_new; [apply (run_add env h a ma Ha Hk b mb Hb Hc)|].
    rewrite klass_derived, amount_derived. split; [done|]. by exists mb.
  - destruct Hop as (mb & Hb & Hkb & Hc).
    destruct (run_sub env h a ma b mb Ha Hk Hb Hkb Hc) as (nb & r & Hrun & Hnb & ->).
    eexists (S (length h)), (h ++ [OMoney nb; _]), _.
    split; [exact Hrun|]. split; [by apply prefix_app_r|]. split; [lia|].
    split.
    { rewrite lookup_app_r by lia.
      by replace (S (length h) - length h)%nat with 1%nat by lia. }
    rewrite klass_propagate, amount_propagate, klass_derived, amount_derived.
    split; [done|]. by exists mb.
  - destruct Hop as (d & Hn).
    eapply derives_new; [apply (run_mul env h a ma Ha Hk n d Hn)|].
    rewrite klass_derived, amount_derived. split; [done|]. by exists d.
  - destruct Hop as (d & Hn & Hz).
    destruct (is_ok_true _ (dec_div_nonzero (amount ma) d Hz)) as (q & Hq).
    eapply derives_new; [apply (run_truediv env h a ma Ha Hk n d q Hn Hq)|].
    rewrite klass_derived, amount_derived. split; [done|]. by exists d.
  - destruct Hop as (d & Hn).
    assert (Hz : dec_eqb (dec_of_Z 100) (dec_of_Z 0) = false) by by rewrite dec_eqb_of_Z.
    destruct (is_ok_true _ (dec_div_nonzero (dec_mul d (amount ma)) _ Hz)) as (q & Hq).
    eapply derives_new; [apply (run_rmod env h a ma Ha Hk n d q Hn Hq)|].
    rewrite klass_derived, amount_derived. split; [done|]. by exists d.
  - eapply derives_new; [apply (run_pos env h a ma Ha Hk)|].
    by rewrite klass_derived, amount_derived.
  - eapply derives_new; [apply (run_neg env h a ma Ha Hk)|].
    by rewrite klass_derived, amount_derived.
  - eapply derives_new; [apply (run_abs env h a ma Ha Hk)|].
    by rewrite klass_derived, amount_derived.
  - destruct (is_ok_true _ Hop) as (q & Hq).
    eapply derives_new; [apply (run___round__ env h a ma Ha n q Hq)|].
    by rewrite klass_derived, amount_derived.
  - destruct (is_ok_true _ Hop) as (q & Hq).
    eapply derives_new; [apply (run_round env h a ma Ha Hk nd q Hq)|].
    by rewrite klass_derived, amount_derived.
Qed.

(** ** How the operators compose *)

Lemma propagate_twice ds m : propagate ds (propagate ds m) = propagate ds m.
Proof. unfold propagate. by destruct (max_defined ds). Qed.

Lemma decimal_places_derived ma d x :
  decimal_places (derived env ma d x)
  = match max_defined [decimal_places ma; d] with
    | Some p => Some p
    | None => Some (DECIMAL_PLACES env)
    end.
Proof. unfold derived. by rewrite decimal_places_propagate. Qed.

(** X8. When the other operand has decimal places, [a - b] is the same
    computation as [-b] followed by [a + (-b)]: the same result and the
    same two new objects. *)
Theorem sub_is_add_of_the_negation h a b ma mb d :
  h !! a = Some (OMoney ma) -> klass ma = DjMoney ->
  h !! b = Some (OMoney mb) -> klass mb = DjMoney ->
  currency ma = currency mb -> decimal_places mb = Some d ->
  Money___sub__ env a (PyRef b) h
  = (let* negated := Money___neg__ env b in Money___add__ env a negated) h.
Proof.
  intros Ha Hk Hb Hkb Hc Hd.
  destruct (run_sub env h a ma b mb Ha Hk Hb Hkb Hc) as (nb & r & -> & Hnb & ->).
  rewrite (bind_ok _ _ _ _ _ (run_neg env h b mb Hb Hkb)). rewrite <- Hnb.
  assert (Hcn : currency ma = currency nb).
  { subst nb. unfold derived. by rewrite currency_propagate. }
  rewrite (run_add env (h ++ [OMoney nb]) a ma (lookup_old _ _ _ _ Ha) Hk
             (length h) nb (lookup_new _ _) Hcn).
  assert (Hdn : decimal_places nb = Some d).
  { subst nb. rewrite decimal_places_derived, Hd. cbn. by rewrite Z.max_id. }
  assert (Han : amount nb = dec_neg (amount mb)).
  { subst nb. apply amount_derived. }
  rewrite Hdn, Hd, Han. unfold derived at 1. rewrite propagate_twice.
  rewrite length_app, Nat.add_1_r. by rewrite <- app_assoc.
Qed.

Lemma max_defined_comm x y : max_defined [x; y] = max_defined [y; x].
Proof.
  destruct x as [x|], y as [y|]; try done.
  unfold max_defined, py_max; cbn. by rewrite Z.max_comm.
Qed.

(** X9. [a + b] and [b + a] derive instances with the same decimal
    places and the same currency, whether or not the decimal places of
    the operands are defined. *)
Theorem add_commutes_in_metadata h a b ma mb :
  h !! a = Some (OMoney ma) -> klass ma = DjMoney ->
  h !! b = Some (OMoney mb) -> klass mb = DjMoney ->
  currency ma = currency mb ->
  exists d,
    derives (Money___add__ env a (PyRef b)) h
      (fun r => decimal_places r = d /\ currency r = currency ma)
    /\ derives (Money___add__ env b (PyRef a)) h
         (fun r => decimal_places r = d /\ currency r = currency ma).
Proof.
  intros Ha Hk Hb Hkb Hc.
  exists (decimal_places (derived env ma (decimal_places mb)
                            (dec_add (amount ma) (amount mb)))).
  split.
  - eapply derives_new; [apply (run_add env h a ma Ha Hk b mb Hb Hc)|].
    rewrite klass_derived. unfold derived. by rewrite currency_propagate.
  - eapply derives_new; [apply (run_add env h b mb Hb Hkb a ma Ha (eq_sym Hc))|].
    rewrite klass_derived, !decimal_places_derived.
    rewrite (max_defined_comm (decimal_places mb)).
    unfold derived. by rewrite currency_propagate.
Qed.

(** X10. When the other operand has no decimal places, [a - b] keeps the
    decimal places of [a], since the last [_copy_attributes] sees only
    those, while [a + (-b)] takes the larger of them and the configured
    default, which the negated operand got at its construction. *)
Theorem sub_without_operand_places h a b ma mb x :
  h !! a = Some (OMoney ma) -> klass ma = DjMoney ->
  h !! b = Some (OMoney mb) -> klass mb = DjMoney ->
  currency ma = currency mb ->
  decimal_places ma = Some x -> decimal_places mb = None ->
  derives (Money___sub__ env a (PyRef b)) h (fun r => decimal_places r = Some x)
  /\ derives (let* negated := Money___neg__ env b in Money___add__ env a negated) h
       (fun r => decimal_places r = Some (Z.max x (DECIMAL_PLACES env))).
Proof.
  intros Ha Hk Hb Hkb Hc Hx Hnone. split.
  - destruct (run_sub env h a ma b mb Ha Hk Hb Hkb Hc) as (nb & r & Hrun & Hnb & ->).
    eexists (S (length h)), (h ++ [OMoney nb; _]), _.
    split; [exact Hrun|]. split; [by apply prefix_app_r|]. split; [lia|].
    split.
    { rewrite lookup_app_r by lia.
      by replace (S (length h) - length h)%nat with 1%nat by lia. }
    by rewrite klass_propagate, decimal_places_propagate, klass_derived, Hx, Hnone.
  - set (nb := derived env mb (decimal_places mb) (dec_neg (amount mb))).
    assert (Hcn : currency ma = currency nb).
    { unfold nb, derived. by rewrite currency_propagate. }
    assert (Hdn : decimal_places nb = Some (DECIMAL_PLACES env)).
    { unfold nb. by rewrite decimal_places_derived, Hnone. }
    eexists (S (length h)), (h ++ [OMoney nb; _]), _.
    split.
    { rewrite (bind_ok _ _ _ _ _ (run_neg env h b mb Hb Hkb)). fold nb.
      rewrite (run_add env (h ++ [OMoney nb]) a ma (lookup_old _ _ _ _ Ha) Hk
                 (length h) nb (lookup_new _ _) Hcn).
      rewrite length_app, Nat.add_1_r. by rewrite <- app_assoc. }
    split; [by apply prefix_app_r|]. split; [lia|].
    split.
    { rewrite lookup_app_r by lia.
      by replace (S (length h) - length h)%nat with 1%nat by lia. }
    by rewrite klass_derived, decimal_places_derived, Hx, Hdn.
Qed.

(** ** Rounding *)

(** X11. [a.round(n)] and [round(a, n)] are the same computation, result
    and heap alike; when the decimal library refuses the digit count both
    raise its exception and create nothing. *)
Theorem round_agrees_with___round__ h a ma n :
  h !! a = Some (OMoney ma) -> klass ma = DjMoney ->
  Money_round env a (Some n) h = Money___round__ env a (Some n) h
  /\ (forall e, dec_quantize (amount ma) n = Raise e ->
               Money_round env a (Some n) h = (Raise e, h)).
Proof.
  intros Ha Hk.
  destruct (dec_quantize (amount ma) n) as [q|e] eqn:Hq.
  - split; [|discriminate].
    rewrite (run_round env h a ma Ha Hk (Some n) q Hq).
    by rewrite (run___round__ env h a ma Ha (Some n) q Hq).
  - assert (Hround : Money_round env a (Some n) h = (Raise e, h)).
    { unfold Money_round. apply bind_raise. unfold DefaultMoney_round.
      rewrite (bind_ok _ _ _ _ _ (load_self_ok _ _ _ Ha)).
      unfold lift, bind. simpl. by rewrite Hq. }
    split; [|by intros ? [= <-]].
    rewrite Hround. unfold Money___round__.
    rewrite (bind_ok _ _ _ _ _ (load_self_ok _ _ _ Ha)).
    unfold lift, bind, py_round. by rewrite Hq.
Qed.

(** ** Construction *)


(** ** Zero as the other operand *)

Lemma run_add_zero h a ma zero :
  h !! a = Some (OMoney ma) -> AUTO_CONVERT_MONEY env = false ->
  eq_zero zero = true ->
  Money___add__ env a zero h = (Ok (PyRef a), h).
Proof.
  intros Ha Hoff Hz.
  assert (Hg : getattr_decimal_places h zero = None) by by destruct zero.
  transitivity
    ((let* m := load_self a in
      let* other := maybe_convert env zero (currency m) in
      let* result := DefaultMoney___add__ env a other in
      Money__copy_attributes a other result;; ret result) h);
    [by destruct zero|].
  rewrite (bind_ok _ _ _ _ _ (load_self_ok _ _ _ Ha)).
  rewrite (bind_ok _ _ _ _ _ (maybe_convert_off _ _ _ _ Hoff)).
  unfold DefaultMoney___add__. rewrite Hz. unfold ret at 1, bind at 1.
  rewrite (bind_ok _ _ _ _ _ (copy_attributes_at _ _ _ _ _ Ha)).
  rewrite (getattr_decimal_places_ref _ _ _ Ha), Hg.
  by rewrite propagate_self, list_insert_id.
Qed.

(** X13. With auto-conversion off, a zero as the other operand of [+]
    (the int 0 or a [Decimal] equal to it), on either side, returns the
    instance itself with the heap unchanged, and so does [a - 0]. *)
Theorem zero_operand_returns_the_instance h a ma zero :
  h !! a = Some (OMoney ma) -> klass ma = DjMoney ->
  AUTO_CONVERT_MONEY env = false -> eq_zero zero = true ->
  Money___add__ env a zero h = (Ok (PyRef a), h)
  /\ Money___radd__ env a zero h = (Ok (PyRef a), h)
  /\ Money___sub__ env a (PyInt 0) h = (Ok (PyRef a), h).
Proof.
  intros Ha Hk Hoff Hz.
  split; [by apply (run_add_zero h a ma)|]. split; [by apply (run_add_zero h a ma)|].
  unfold Money___sub__.
  rewrite (bind_ok _ _ _ _ _ (load_self_ok _ _ _ Ha)).
  rewrite (bind_ok _ _ _ _ _ (maybe_convert_off _ _ _ _ Hoff)).
  assert (Hbase : DefaultMoney___sub__ env a (PyInt 0) h = (Ok (PyRef a), h)).
  { unfold DefaultMoney___sub__, py_neg. unfold ret at 1, bind at 1. cbn [Z.opp].
    unfold call___add__. rewrite (bind_ok _ _ _ _ _ (load_self_ok _ _ _ Ha)).
    rewrite Hk. by apply (run_add_zero h a ma). }
  rewrite (bind_ok _ _ _ _ _ Hbase).
  rewrite (bind_ok _ _ _ _ _ (copy_attributes_at _ _ _ _ _ Ha)).
  rewrite (getattr_decimal_places_ref _ _ _ Ha).
  change (getattr_decimal_places h (PyInt 0)) with (@None Z).
  by rewrite propagate_self, list_insert_id.
Qed.

(** ** Operands of the same currency and the conversion service *)

(** X14. For two instances of the same currency, [+] and [-] compute the
    same whatever the auto-conversion flag and the conversion service:
    the service is not consulted. *)
Theorem same_currency_is_never_converted h a b ma mb flag conv :
  h !! a = Some (OMoney ma) -> klass ma = DjMoney ->
  h !! b = Some (OMoney mb) -> klass mb = DjMoney ->
  currency ma = currency mb ->
  Money___add__ (with_conversion env flag conv) a (PyRef b) h
  = Money___add__ env a (PyRef b) h
  /\ Money___sub__ (with_conversion env flag conv) a (PyRef b) h
     = Money___sub__ env a (PyRef b) h.
Proof.
  intros Ha Hk Hb Hkb Hc. split.
  - rewrite (run_add (with_conversion env flag conv) h a ma Ha Hk b mb Hb Hc).
    by rewrite (run_add env h a ma Ha Hk b mb Hb Hc).
  - destruct (run_sub (with_conversion env flag conv) h a ma b mb Ha Hk Hb Hkb Hc)
      as (nb & r & -> & -> & ->).
    destruct (run_sub env h a ma b mb Ha Hk Hb Hkb Hc) as (nb' & r' & -> & -> & ->).
    done.
Qed.

(** ** Rendering and the caller's mapping *)

(** The keyword arguments [__str__] computes for an instance. *)
Definition kwargs_of (h : list obj) (m : Money) : gmap string fval :=
  let merged := merged_format_options env h m in
  let locale := get_current_locale env in
  if truthy locale then <["locale" := FStr locale]> merged else merged.

Lemma run_str h a ma :
  h !! a = Some (OMoney ma) ->
  Money___str__ env a h = (Ok (format_money env ma (kwargs_of h ma)), h).
Proof.
  intros Ha. unfold Money___str__, Money_str_kwargs.
  rewrite (bind_ok _ _ _ _ _ (load_self_ok _ _ _ Ha)).
  unfold bind at 1. by rewrite (bind_ok _ _ _ _ _ (load_self_ok _ _ _ Ha)).
Qed.

Lemma kwargs_of_other_key h m key :
  key <> "locale" ->
  kwargs_of h m !! key = merged_format_options env h m !! key.
Proof.
  intros Hkey. unfold kwargs_of. destruct (truthy _); [|done].
  by rewrite lookup_insert_ne.
Qed.

(** X15. When the caller writes [mapping[key] = value] to the mapping an
    instance was built with, the instance itself is unchanged and its
    next rendering passes [value] under [key] to [format_money] (for any
    key but ["locale"]). *)
Theorem rendering_follows_the_mapping h a ma d items key value :
  h !! a = Some (OMoney ma) -> format_options ma = Some (MappingProxy d) ->
  h !! d = Some (ODict items) -> key <> "locale" ->
  exists h2 kwargs,
    dict___setitem__ d key value h = (Ok tt, h2)
    /\ h2 !! a = Some (OMoney ma)
    /\ Money___str__ env a h2 = (Ok (format_money env ma kwargs), h2)
    /\ kwargs !! key = Some value.
Proof.
  intros Ha Hf Hd Hkey.
  assert (Hne : a <> d) by (intros ->; congruence).
  assert (Hlt : (d < length h)%nat) by by eapply lookup_lt_Some.
  set (h2 := <[d := ODict (<[key := value]> items)]> h).
  assert (Ha2 : h2 !! a = Some (OMoney ma)).
  { unfold h2. by rewrite list_lookup_insert_ne. }
  eexists h2, _. split; [by apply run_setitem|]. split; [done|].
  split; [by apply run_str|].
  rewrite kwargs_of_other_key by done.
  rewrite merged_format_options_union, lookup_merged.
  unfold instance_options, mappingproxy_items. rewrite Hf. unfold h2.
  rewrite list_lookup_insert_eq by done. by rewrite lookup_insert_eq.
Qed.

(** ** Localization *)

Lemma run_is_localized h a ma :
  h !! a = Some (OMoney ma) ->
  Money_is_localized env a h
  = (Ok match use_l10n ma with Some b => b | None => USE_L10N env end, h).
Proof.
  intros Ha. unfold Money_is_localized.
  rewrite (bind_ok _ _ _ _ _ (load_self_ok _ _ _ Ha)). by destruct (use_l10n ma).
Qed.

(** X16. An instance derived by an operator has no [use_l10n] of its
    own: its [is_localized] is the process-wide setting, while that of the
    operand is still its own override if it has one. *)
Theorem derived_instances_follow_the_setting h a ma op :
  h !! a = Some (OMoney ma) -> klass ma = DjMoney -> applicable h ma op ->
  exists l h',
    run env a op h = (Ok (PyRef l), h')
    /\ Money_is_localized env l h' = (Ok (USE_L10N env), h')
    /\ Money_is_localized env a h'
       = (Ok match use_l10n ma with Some b => b | None => USE_L10N env end, h').
Proof.
  intros Ha Hk Hop.
  destruct (run_derives env h a ma op Ha Hk Hop)
    as (l & h' & r & Hrun & Hpre & _ & Hl & _ & _ & _ & Hu & _).
  exists l, h'. split; [done|]. split.
  - rewrite (run_is_localized _ _ _ Hl). by rewrite Hu.
  - apply run_is_localized. destruct Hpre as [k ->]. by apply lookup_old.
Qed.

(** ** From construction and from the operators to rendering *)

(** X21. The options given to the constructor reach [format_money] when
    the new instance is rendered: under every key but ["locale"] the
    value of the given mapping if it has one, else the default. *)
Theorem options_given_at_construction_reach_format_money
    h amount c dps mapping items x :
  h !! mapping = Some (ODict items) -> force_decimal amount = Ok x ->
  exists m h1 kwargs,
    Money___init__ env amount c dps (Some mapping) h = (Ok (length h), h1)
    /\ h1 !! length h = Some (OMoney m)
    /\ Money___str__ env (length h) h1 = (Ok (format_money env m kwargs), h1)
    /\ forall key,
         key <> "locale" ->
         kwargs !! key
         = match items !! key with
           | Some value => Some value
           | None => MONEY_FORMAT env !! key
           end.
Proof.
  intros Hd Hx. eexists _, _, _.
  split; [by apply (run_init env h amount c dps mapping items x)|].
  split; [apply lookup_new|]. split; [apply run_str, lookup_new|].
  intros key Hkey. rewrite kwargs_of_other_key by done.
  rewrite merged_format_options_union, lookup_merged.
  unfold instance_options, mappingproxy_items. cbn [format_options].
  by rewrite (lookup_old _ _ _ _ Hd).
Qed.

(** X22. An instance derived by an operator is rendered with the default
    format options alone (and the locale), whatever the format options
    of the operands. *)
Theorem derived_instances_render_with_the_defaults h a ma op :
  h !! a = Some (OMoney ma) -> klass ma = DjMoney -> applicable h ma op ->
  exists l h' r kwargs,
    run env a op h = (Ok (PyRef l), h')
    /\ h' !! l = Some (OMoney r)
    /\ Money___str__ env l h' = (Ok (format_money env r kwargs), h')
    /\ forall key, key <> "locale" -> kwargs !! key = MONEY_FORMAT env !! key.
Proof.
  intros Ha Hk Hop.
  destruct (run_derives env h a ma op Ha Hk Hop)
    as (l & h' & r & Hrun & _ & _ & Hl & _ & _ & Hf & _).
  exists l, h', r, (kwargs_of h' r). split; [done|]. split; [done|].
  split; [by apply run_str|].
  intros key Hkey. rewrite kwargs_of_other_key by done.
  unfold merged_format_options. by rewrite Hf.
Qed.

End Coverage.

(** * Markup rendering *)

(** [django.utils.html] and [django.utils.safestring], on text held as its
    UTF-8 bytes: the characters these functions look for are ASCII, and an
    ASCII byte of UTF-8 text is always a character of its own. *)
Module DjangoHtml.

(** A [str], or a [SafeString]: text that needs no further escaping and
    has an [__html__] method. *)
Inductive text :=
| Plain (s : string)
| SafeString (s : string).

Definition str (t : text) : string :=
  match t with Plain s | SafeString s => s end.

(** [s.replace(c, new)] for a one-character [c]. *)
Fixpoint replace_char (c : ascii) (new : string) (s : string) : string :=
  match s with
  | EmptyString => EmptyString
  | String x s' =>
      if Ascii.eqb x c then (new ++ replace_char c new s')%string
      else String x (replace_char c new s')
  end.

Definition quote : ascii := "034"%char.
Definition apostrophe : ascii := "039"%char.

(** [html.escape(s)], quotes included: five replacements in a row, the
    ampersand first. *)
Definition html_escape (s : string) : string :=
  let s := replace_char "&" "&amp;" s in
  let s := replace_char "<" "&lt;" s in
  let s := replace_char ">" "&gt;" s in
  let s := replace_char quote "&quot;" s in
  replace_char apostrophe "&#x27;" s.

Definition escape (t : text) : text := SafeString (html_escape (str t)).

Definition conditional_escape (t : text) : text :=
  match t with
  | SafeString _ => t
  | Plain _ => escape t
  end.

(** The no-break space U+00A0. *)
Definition nbsp : string := String "194" (String "160" EmptyString).

(** [value.replace(" ", "\xa0")]: a method of [str], whose result is a
    plain [str] even for a [SafeString]. *)
Definition avoid_wrapping (value : text) : text :=
  Plain (replace_char " " nbsp (str value)).

Definition mark_safe (t : text) : text :=
  match t with
  | SafeString _ => t
  | Plain s => SafeString s
  end.

(** Whether the character [c] occurs in [s]. *)
Fixpoint occurs (c : ascii) (s : string) : bool :=
  match s with
  | EmptyString => false
  | String x s' => Ascii.eqb x c || occurs c s'
  end.

Lemma occurs_app c s t : occurs c (s ++ t) = occurs c s || occurs c t.
Proof.
  induction s as [|x s IH]; simpl; [done|]. rewrite IH. by rewrite orb_assoc.
Qed.

Lemma replace_char_removes c new s :
  occurs c new = false -> occurs c (replace_char c new s) = false.
Proof.
  intros Hnew. induction s as [|x s IH]; simpl; [done|].
  destruct (Ascii.eqb x c) eqn:Hx.
  - by rewrite occurs_app, Hnew, IH.
  - simpl. by rewrite Hx, IH.
Qed.

Lemma replace_char_keeps_out d c new s :
  occurs d new = false -> occurs d s = false ->
  occurs d (replace_char c new s) = false.
Proof.
  intros Hnew. induction s as [|x s IH]; simpl; [done|].
  intros [Hx Hs]%orb_false_iff. destruct (Ascii.eqb x c).
  - by rewrite occurs_app, Hnew, IH.
  - simpl. by rewrite Hx, IH.
Qed.

Lemma replace_char_absent c new s :
  occurs c s = false -> replace_char c new s = s.
Proof.
  induction s as [|x s IH]; simpl; [done|].
  intros [Hx Hs]%orb_false_iff. by rewrite Hx, IH.
Qed.

(** The text [__html__] makes of a rendered string. *)
Definition markup (rendered : string) : text :=
  mark_safe (avoid_wrapping (conditional_escape (Plain rendered))).

(** The characters that are markup to HTML, and the space. *)
Definition unsafe_characters : list ascii :=
  ["<"; ">"; quote; apostrophe; " "]%char.

Lemma markup_is_clean rendered c :
  In c unsafe_characters -> occurs c (str (markup rendered)) = false.
Proof.
  unfold unsafe_characters, markup. cbn [mark_safe avoid_wrapping conditional_escape escape str].
  unfold html_escape.
  intros [<-|[<-|[<-|[<-|[<-|[]]]]]].
  - apply replace_char_keeps_out; [done|].
    do 3 (apply replace_char_keeps_out; [done|]).
    by apply replace_char_removes.
  - apply replace_char_keeps_out; [done|].
    do 2 (apply replace_char_keeps_out; [done|]).
    by apply replace_char_removes.
  - apply replace_char_keeps_out; [done|].
    apply replace_char_keeps_out; [done|].
    by apply replace_char_removes.
  - apply replace_char_keeps_out; [done|].
    by apply replace_char_removes.
  - by apply replace_char_removes.
Qed.

Lemma markup_of_plain rendered :
  (forall c, In c ("&"%char :: unsafe_characters) -> occurs c rendered = false) ->
  str (markup rendered) = rendered.
Proof.
  intros Hplain. unfold markup.
  cbn [mark_safe avoid_wrapping conditional_escape escape str]. unfold html_escape.
  rewrite (replace_char_absent "&" _ rendered) by (apply Hplain; simpl; tauto).
  rewrite (replace_char_absent "<" _ rendered) by (apply Hplain; simpl; tauto).
  rewrite (replace_char_absent ">" _ rendered) by (apply Hplain; simpl; tauto).
  rewrite (replace_char_absent quote _ rendered) by (apply Hplain; simpl; tauto).
  rewrite (replace_char_absent apostrophe _ rendered) by (apply Hplain; simpl; tauto).
  apply replace_char_absent. apply Hplain; simpl; tauto.
Qed.

End DjangoHtml.

Section Markup.
Context `{DecimalLib} (env : Env).
Import DjangoHtml.

Definition Money___html__ (self : nat) : M text :=
  let* rendered := Money___str__ env self in
  ret (mark_safe (avoid_wrapping (conditional_escape (Plain rendered)))).

(** X17. [__html__] returns the rendered string escaped, with no-break
    spaces for its spaces, as a [SafeString]: the result holds none of
    [<], [>], the two quotes and the ordinary space; the heap is
    untouched. *)
Theorem html_is_safe_and_unbreakable h a ma :
  h !! a = Some (OMoney ma) ->
  exists safe,
    Money___html__ a h = (Ok (SafeString safe), h)
    /\ Money___str__ env a h
       = (Ok (format_money env ma (kwargs_of env h ma)), h)
    /\ SafeString safe = markup (format_money env ma (kwargs_of env h ma))
    /\ forall c, In c unsafe_characters -> occurs c safe = false.
Proof.
  intros Ha.
  exists (str (markup (format_money env ma (kwargs_of env h ma)))).
  split; [|split; [by apply run_str|split; [done|]]].
  - unfold Money___html__. by rewrite (bind_ok _ _ _ _ _ (run_str env h a ma Ha)).
  - intros c Hc. by apply markup_is_clean.
Qed.

(** X18. When the rendered string holds no ampersand, angle bracket,
    quote or space, [__html__] returns that very string, marked safe. *)
Theorem html_keeps_plain_text h a ma :
  h !! a = Some (OMoney ma) ->
  let rendered := format_money env ma (kwargs_of env h ma) in
  (forall c, In c ("&"%char :: unsafe_characters) -> occurs c rendered = false) ->
  Money___html__ a h = (Ok (SafeString rendered), h).
Proof.
  intros Ha rendered Hplain. unfold Money___html__.
  rewrite (bind_ok _ _ _ _ _ (run_str env h a ma Ha)). fold rendered.
  unfold ret. f_equal. f_equal.
  change (markup rendered = SafeString rendered).
  rewrite <- (markup_of_plain rendered Hplain) at 2. done.
Qed.

End Markup.

(** * Summing instances *)

Section Sum.
Context `{DecimalLib} (env : Env).
Implicit Types (h : list obj) (m : Money) (l : nat).

(** [acc + item] inside [sum]: the accumulator is the [int] 0 at first,
    whose [__add__] does not know [Money], so that Python calls
    [item.__radd__(0)], which is [__add__] in both classes; afterwards it
    is an instance and its own [__add__] is called. *)
Definition sum_step (acc : pyvalue) (item : nat) : M pyvalue :=
  match acc with
  | PyRef a => call___add__ env a (PyRef item)
  | _ => call___add__ env item acc
  end.

(** [sum(items)] for a list of instances. *)
Fixpoint sum_from (acc : pyvalue) (items : list nat) : M pyvalue :=
  match items with
  | [] => ret acc
  | item :: rest => let* acc := sum_step acc item in sum_from acc rest
  end.

Definition py_sum (items : list nat) : M pyvalue := sum_from (PyInt 0) items.

(** The object at [l] is an instance of [Money] in the currency [c] with
    the amount and the decimal places of [entry]. *)
Definition holds (c : string) (h : list obj) (l : nat) (entry : Decimal * Z) : Prop :=
  exists m, h !! l = Some (OMoney m) /\ klass m = DjMoney /\ currency m = c
            /\ amount m = entry.1 /\ decimal_places m = Some entry.2.

Lemma holds_app c h t l entry : holds c h l entry -> holds c (h ++ t) l entry.
Proof.
  intros (m & Hl & Hrest). exists m. split; [by apply lookup_old|done].
Qed.

Lemma sum_from_instance c h items entries a x d :
  holds c h a (x, d) -> Forall2 (holds c h) items entries ->
  exists l h',
    sum_from (PyRef a) items h = (Ok (PyRef l), h')
    /\ h `prefix_of` h'
    /\ holds c h' l (foldl dec_add x entries.*1, foldl Z.max d entries.*2).
Proof.
  intros Ha Hitems. revert h items a x d Ha Hitems.
  induction entries as [|[y e] entries IH]; intros h items a x d Ha Hitems.
  - apply Forall2_nil_inv_r in Hitems as ->. by exists a, h.
  - apply Forall2_cons_inv_r in Hitems as (b & rest & Hb & Hrest & ->).
    destruct Ha as (ma & Hla & Hka & Hca & Hxa & Hda).
    destruct Hb as (mb & Hlb & Hkb & Hcb & Hyb & Hdb). simpl in *.
    assert (Hc : currency ma = currency mb) by congruence.
    set (r := derived env ma (decimal_places mb) (dec_add (amount ma) (amount mb))).
    assert (Hstep : sum_step (PyRef a) b h = (Ok (PyRef (length h)), h ++ [OMoney r])).
    { unfold sum_step, call___add__.
      rewrite (bind_ok _ _ _ _ _ (load_self_ok _ _ _ Hla)), Hka.
      apply (run_add env h a ma Hla Hka b mb Hlb Hc). }
    assert (Hr : holds c (h ++ [OMoney r]) (length h) (dec_add x y, Z.max d e)).
    { exists r. split; [apply lookup_new|]. unfold r, derived.
      rewrite klass_propagate, currency_propagate, amount_propagate,
        decimal_places_propagate, Hda, Hdb, Hxa, Hyb.
      done. }
    destruct (IH (h ++ [OMoney r]) rest (length h) _ _ Hr) as (l & h' & Hrun & Hpre & Hl).
    { eapply Forall2_impl; [exact Hrest|]. intros ? ?. apply holds_app. }
    exists l, h'. split; [|split; [|done]].
    + cbn [sum_from]. by rewrite (bind_ok _ _ _ _ _ Hstep).
    + etrans; [|exact Hpre]. by apply prefix_app_r.
Qed.

(** X19. With auto-conversion off, [sum] of a non-empty list of instances
    of one currency whose decimal places are defined returns an instance
    of that currency whose amount is the amounts added from the left and
    whose decimal places are the largest of the list; the objects that
    existed before are unchanged. *)
Theorem sum_of_instances c h item items x d entries :
  AUTO_CONVERT_MONEY env = false ->
  holds c h item (x, d) -> Forall2 (holds c h) items entries ->
  exists l h',
    py_sum (item :: items) h = (Ok (PyRef l), h')
    /\ h `prefix_of` h'
    /\ holds c h' l (foldl dec_add x entries.*1, foldl Z.max d entries.*2).
Proof.
  intros Hoff Hitem Hitems.
  destruct (sum_from_instance c h items entries item x d Hitem Hitems)
    as (l & h' & Hrun & Hpre & Hl).
  exists l, h'. split; [|done].
  destruct Hitem as (m & Hm & Hk & _).
  unfold py_sum. cbn [sum_from].
  assert (Hfirst : sum_step (PyInt 0) item h = (Ok (PyRef item), h)).
  { unfold sum_step, call___add__.
    rewrite (bind_ok _ _ _ _ _ (load_self_ok _ _ _ Hm)), Hk.
    by apply (add_zero_identity env h item m). }
  by rewrite (bind_ok _ _ _ _ _ Hfirst).
Qed.

End Sum.

(** * Existing objects are never changed *)

Section Immutability.
Context `{DecimalLib} (env : Env).
Implicit Types (h : list obj) (m : Money) (v : pyvalue) (l : nat).

Lemma copy_attributes_not_instance a source v h :
  (forall l, v <> PyRef l) ->
  ((Money__copy_attributes a source v;; ret v) h).2 = h.
Proof.
  intros Hv. unfold Money__copy_attributes, bind.
  destruct (omap _ _); [done|]. destruct v; try done. by destruct (Hv l).
Qed.

Lemma base_add_not_money h a other :
  eq_zero other = false -> money_of h other = None ->
  DefaultMoney___add__ env a other h = (Ok PyNotImplemented, h).
Proof.
  intros Hz Hm. unfold DefaultMoney___add__, isinstance_Money, bind.
  by rewrite Hz, Hm.
Qed.

(** The three ways [a + other] can end when nothing is converted: it
    raises, or returns [a] itself (for a zero) or a value that is no
    object, the heap being as before, or returns one new instance. *)
Definition add_outcome (h : list obj) (a : nat) (other : pyvalue)
    (out : result pyvalue * list obj) : Prop :=
  (exists e, out = (Raise e, h))
  \/ (exists v, out = (Ok v, h)
                /\ (v = PyRef a /\ eq_zero other = true \/ forall l, v <> PyRef l))
  \/ (exists r, out = (Ok (PyRef (length h)), h ++ [OMoney r])).

Lemma add_ends h a ma other :
  h !! a = Some (OMoney ma) -> klass ma = DjMoney ->
  AUTO_CONVERT_MONEY env = false ->
  add_outcome h a other (Money___add__ env a other h).
Proof.
  intros Ha Hk Hoff.
  destruct (eq_zero other) eqn:Hz.
  { right; left. exists (PyRef a). split; [by apply (run_add_zero env h a ma)|auto]. }
  destruct other as [| |z|d|l|e];
    try (cbn [Money___add__];
         rewrite (bind_ok _ _ _ _ _ (load_self_ok _ _ _ Ha));
         rewrite (bind_ok _ _ _ _ _ (maybe_convert_off _ _ _ _ Hoff))).
  1-4: rewrite (bind_ok _ _ _ _ _ (base_add_not_money h a _ Hz eq_refl)).
  1-4: unfold Money__copy_attributes, bind, ret;
    destruct (omap _ _); [right; left; eexists; split; [done|by right]
                         |left; by eexists].
  - destruct (money_of h (PyRef l)) as [mb|] eqn:Hm.
    + assert (Hl : h !! l = Some (OMoney mb)).
      { simpl in Hm. destruct (h !! l) as [[?|?]|]; congruence. }
      destruct (decide (currency ma = currency mb)) as [Hc|Hc].
      * right; right. eexists.
        rewrite <- (run_add env h a ma Ha Hk l mb Hl Hc).
        cbn [Money___add__].
        rewrite (bind_ok _ _ _ _ _ (load_self_ok _ _ _ Ha)).
        by rewrite (bind_ok _ _ _ _ _ (maybe_convert_off _ _ _ _ Hoff)).
      * left. eexists.
        by rewrite (bind_raise _ _ _ _ _ (base_add_other_currency env _ _ _ _ _ Ha Hl Hc)).
    + rewrite (bind_ok _ _ _ _ _ (base_add_not_money h a _ Hz Hm)).
      unfold Money__copy_attributes, bind, ret.
      destruct (omap _ _); [right; left; eexists; split; [done|by right]
                           |left; by eexists].
  - right; left. cbn [Money___add__].
    rewrite (bind_ok _ _ _ _ _ (load_self_ok _ _ _ Ha)).
    eexists. split; [done|by right].
Qed.

(** The ways an operator of the parent class can end on an instance of
    [Money]: it raises with the heap as before, or returns one new
    instance (the other operand then being a value of that heap). *)
Definition base_outcome (h : list obj) (other : pyvalue)
    (out : result pyvalue * list obj) : Prop :=
  (exists e, out = (Raise e, h))
  \/ (exists new, valid h other
                  /\ out = (Ok (PyRef (length h)), h ++ [OMoney new])).

Lemma derive_keeps (base : M pyvalue) h a ma other :
  h !! a = Some (OMoney ma) -> base_outcome h other (base h) ->
  h `prefix_of`
    ((let* result := base in Money__copy_attributes a other result;; ret result) h).2.
Proof.
  intros Ha [[e He]|(new & Hv & Hnew)].
  - by rewrite (bind_raise _ _ _ _ _ He).
  - rewrite (derive_new base a other h h ma new Ha Hv Hnew). by apply prefix_app_r.
Qed.

Lemma construct_new h k x c :
  exists new, construct env k x c h = (Ok (PyRef (length h)), h ++ [OMoney new]).
Proof. destruct k; by eexists. Qed.

Lemma base_mul_ends h a ma other :
  h !! a = Some (OMoney ma) ->
  base_outcome h other (DefaultMoney___mul__ env a other h).
Proof.
  intros Ha. unfold DefaultMoney___mul__, isinstance_Money. unfold bind at 1.
  destruct (money_of h other); [left; by eexists|].
  unfold lift, bind at 1.
  destruct (force_decimal other) as [d|e] eqn:Hd; [|left; by eexists].
  rewrite (bind_ok _ _ _ _ _ (load_self_ok _ _ _ Ha)).
  destruct (construct_new h (klass ma) (dec_mul (amount ma) d) (currency ma))
    as [new ->].
  right. exists new. split; [|done]. by apply (force_decimal_number other d).
Qed.

Lemma base_rmod_ends h a ma other :
  h !! a = Some (OMoney ma) ->
  base_outcome h (PyRef a) (DefaultMoney___rmod__ env a other h).
Proof.
  intros Ha. unfold DefaultMoney___rmod__, isinstance_Money. unfold bind at 1.
  destruct (money_of h other); [left; by eexists|].
  unfold lift, bind at 1.
  destruct (force_decimal other) as [d|e] eqn:Hd; [|left; by eexists].
  rewrite (bind_ok _ _ _ _ _ (load_self_ok _ _ _ Ha)).
  unfold bind at 1.
  destruct (dec_div _ _) as [q|e]; [|left; by eexists].
  destruct (construct_new h (klass ma) q (currency ma)) as [new ->].
  right. exists new. split; [|done]. by eapply valid_lookup.
Qed.

Lemma base_unary_ends h a ma (f : Decimal -> Decimal) :
  h !! a = Some (OMoney ma) ->
  base_outcome h (PyRef a)
    ((let* m := load_self a in construct env (klass m) (f (amount m)) (currency m)) h).
Proof.
  intros Ha. rewrite (bind_ok _ _ _ _ _ (load_self_ok _ _ _ Ha)).
  destruct (construct_new h (klass ma) (f (amount ma)) (currency ma)) as [new ->].
  right. exists new. split; [|done]. by eapply valid_lookup.
Qed.

Lemma base_round_ends h a ma ndigits :
  h !! a = Some (OMoney ma) ->
  base_outcome h (PyRef a) (DefaultMoney_round env a ndigits h).
Proof.
  intros Ha. unfold DefaultMoney_round.
  rewrite (bind_ok _ _ _ _ _ (load_self_ok _ _ _ Ha)).
  unfold lift, bind at 1.
  destruct (dec_quantize _ _) as [q|e]; [|left; by eexists].
  destruct (construct_new h (klass ma) q (currency ma)) as [new ->].
  right. exists new. split; [|done]. by eapply valid_lookup.
Qed.

Lemma mul_keeps h a ma other :
  h !! a = Some (OMoney ma) -> h `prefix_of` (Money___mul__ env a other h).2.
Proof.
  intros Ha.
  destruct other; cbn [Money___mul__];
    try apply (derive_keeps _ h a ma _ Ha (base_mul_ends h a ma _ Ha)).
  by rewrite (bind_ok _ _ _ _ _ (load_self_ok _ _ _ Ha)).
Qed.

(** Division by an instance ends in a third way: with a plain decimal. *)
Definition truediv_outcome (h : list obj) (other : pyvalue)
    (out : result pyvalue * list obj) : Prop :=
  base_outcome h other out \/ exists q, out = (Ok (PyDecimal q), h).

Lemma base_truediv_ends h a ma other :
  h !! a = Some (OMoney ma) ->
  truediv_outcome h other (DefaultMoney___truediv__ env a other h).
Proof.
  intros Ha. unfold DefaultMoney___truediv__, isinstance_Money. unfold bind at 1.
  destruct (money_of h other) as [mo|] eqn:Hm.
  - rewrite (bind_ok _ _ _ _ _ (load_self_ok _ _ _ Ha)).
    destruct (decide _); [left; left; by eexists|].
    unfold lift, bind, ret.
    destruct (dec_div _ _) as [q|e]; [right; by eexists|left; left; by eexists].
  - unfold lift at 1, bind at 1.
    destruct (force_decimal other) as [d|e] eqn:Hd; [|left; left; by eexists].
    rewrite (bind_ok _ _ _ _ _ (load_self_ok _ _ _ Ha)).
    unfold lift at 1, bind at 1.
    destruct (dec_div _ _) as [q|e]; [|left; left; by eexists].
    destruct (construct_new h (klass ma) q (currency ma)) as [new ->].
    left; right. exists new. split; [|done]. by apply (force_decimal_number other d).
Qed.

Lemma truediv_keeps h a ma other :
  h !! a = Some (OMoney ma) -> h `prefix_of` (Money___truediv__ env a other h).2.
Proof.
  intros Ha.
  assert (Hgen : h `prefix_of`
            ((let* result := DefaultMoney___truediv__ env a other in
              let* is_money := isinstance_DjMoney result in
              (if is_money : bool then Money__copy_attributes a other result
               else ret tt);;
              ret result) h).2).
  { destruct (base_truediv_ends h a ma other Ha)
      as [[[e He]|(new & Hv & Hnew)]|[q Hq]].
    - by rewrite (bind_raise _ _ _ _ _ He).
    - rewrite (bind_ok _ _ _ _ _ Hnew).
      unfold isinstance_DjMoney at 1, bind at 1. unfold money_of.
      rewrite lookup_new.
      destruct (bool_decide _); [|by apply prefix_app_r].
      rewrite (bind_ok _ _ _ _ _ (copy_attributes_new _ _ _ _ _ Ha Hv)).
      by apply prefix_app_r.
    - by rewrite (bind_ok _ _ _ _ _ Hq). }
  destruct other; try exact Hgen.
  cbn [Money___truediv__]. by rewrite (bind_ok _ _ _ _ _ (load_self_ok _ _ _ Ha)).
Qed.

Lemma neg_ends h other :
  (exists e, py_neg env other h = (Raise e, h))
  \/ (exists negated h1,
        py_neg env other h = (Ok negated, h1) /\ h `prefix_of` h1
        /\ valid h1 other
        /\ (getattr_decimal_places h1 other = None \/ eq_zero negated = false)).
Proof.
  destruct other as [| |z|d|l|e]; cbn [py_neg]; try (left; by eexists).
  - right. exists (PyInt (- z)), h. repeat split; auto.
  - right. exists (PyDecimal (dec_neg d)), h. repeat split; auto.
  - destruct (money_of h (PyRef l)) as [m|] eqn:Hm.
    2: { left. eexists. unfold isinstance_Money, bind. by rewrite Hm. }
    assert (Hl : h !! l = Some (OMoney m)).
    { simpl in Hm. destruct (h !! l) as [[?|?]|]; congruence. }
    right. destruct (klass m) eqn:Hk.
    + eexists _, _. split.
      { unfold isinstance_Money. unfold bind at 1. rewrite Hm, Hk.
        apply (run_neg env h l m Hl Hk). }
      split; [by apply prefix_app_r|]. split; [|by right].
      apply (valid_lookup _ _ (OMoney m)). by apply lookup_old.
    + eexists _, _. split.
      { unfold isinstance_Money. unfold bind at 1. rewrite Hm, Hk.
        unfold DefaultMoney___neg__.
        rewrite (bind_ok _ _ _ _ _ (load_self_ok _ _ _ Hl)). by rewrite Hk. }
      split; [by apply prefix_app_r|]. split; [|by right].
      apply (valid_lookup _ _ (OMoney m)). by apply lookup_old.
  - right. exists (PyExpr (Combinable___neg__ e)), h. repeat split; auto.
Qed.

Lemma copy_after_add h a ma other negated out :
  h !! a = Some (OMoney ma) -> valid h other ->
  getattr_decimal_places h other = None \/ eq_zero negated = false ->
  add_outcome h a negated out ->
  h `prefix_of`
    (match out with
     | (Ok result, h') =>
         (Money__copy_attributes a other result;; ret result) h'
     | (Raise e, h') => (Raise e, h')
     end).2.
Proof.
  intros Ha Hv Hg [[e ->]|[(v & -> & [[-> Hz]|Hv'])|[r ->]]].
  - done.
  - destruct Hg as [Hg|Hg]; [|congruence].
    rewrite (bind_ok _ _ _ _ _ (copy_attributes_at _ _ _ _ _ Ha)).
    rewrite (getattr_decimal_places_ref _ _ _ Ha), Hg.
    by rewrite propagate_self, list_insert_id.
  - by rewrite copy_attributes_not_instance.
  - rewrite (bind_ok _ _ _ _ _ (copy_attributes_new _ _ _ _ _ Ha Hv)).
    by apply prefix_app_r.
Qed.

Lemma sub_keeps h a ma other :
  h !! a = Some (OMoney ma) -> klass ma = DjMoney ->
  AUTO_CONVERT_MONEY env = false ->
  h `prefix_of` (Money___sub__ env a other h).2.
Proof.
  intros Ha Hk Hoff.
  assert (Hgen : h `prefix_of`
            ((let* result := DefaultMoney___sub__ env a other in
              Money__copy_attributes a other result;; ret result) h).2).
  { unfold DefaultMoney___sub__.
    destruct (neg_ends h other) as [[e He]|(negated & h1 & Hneg & Hpre & Hv & Hg)].
    { rewrite (bind_raise _ _ _ _ _ (bind_raise _ _ _ _ _ He)). done. }
    assert (Ha1 : h1 !! a = Some (OMoney ma)).
    { destruct Hpre as [t ->]. by apply lookup_old. }
    pose proof (add_ends h1 a ma negated Ha1 Hk Hoff) as Hadd.
    pose proof (copy_after_add h1 a ma other negated _ Ha1 Hv Hg Hadd) as Hkeep.
    assert (Hbase : (let* negated := py_neg env other in call___add__ env a negated) h
                    = Money___add__ env a negated h1).
    { rewrite (bind_ok _ _ _ _ _ Hneg). unfold call___add__.
      rewrite (bind_ok _ _ _ _ _ (load_self_ok _ _ _ Ha1)). by rewrite Hk. }
    unfold bind at 1. rewrite Hbase. etrans; [exact Hpre|].
    destruct (Money___add__ env a negated h1) as [[result|e] h']; exact Hkeep. }
  destruct other;
    try (cbn [Money___sub__];
         rewrite (bind_ok _ _ _ _ _ (load_self_ok _ _ _ Ha));
         rewrite (bind_ok _ _ _ _ _ (maybe_convert_off _ _ _ _ Hoff));
         exact Hgen).
  cbn [Money___sub__]. by rewrite (bind_ok _ _ _ _ _ (load_self_ok _ _ _ Ha)).
Qed.

Lemma add_keeps h a ma other :
  h !! a = Some (OMoney ma) -> klass ma = DjMoney ->
  AUTO_CONVERT_MONEY env = false ->
  h `prefix_of` (Money___add__ env a other h).2.
Proof.
  intros Ha Hk Hoff.
  destruct (add_ends h a ma other Ha Hk Hoff) as [[e ->]|[(v & -> & _)|[r ->]]];
    [done|done|by apply prefix_app_r].
Qed.

(** X20. No operator changes an object that existed before the call,
    whatever the other operand and whether the call returns or raises:
    the heap afterwards is the heap before with new objects appended.
    For [+] and [-] this is stated with auto-conversion off, where no
    conversion service runs. *)
Theorem operators_keep_existing_objects h a ma :
  h !! a = Some (OMoney ma) -> klass ma = DjMoney ->
  (AUTO_CONVERT_MONEY env = false ->
   forall other,
     h `prefix_of` (Money___add__ env a other h).2
     /\ h `prefix_of` (Money___radd__ env a other h).2
     /\ h `prefix_of` (Money___sub__ env a other h).2)
  /\ (forall other,
        h `prefix_of` (Money___mul__ env a other h).2
        /\ h `prefix_of` (Money___rmul__ env a other h).2
        /\ h `prefix_of` (Money___truediv__ env a other h).2
        /\ h `prefix_of` (Money___rmod__ env a other h).2)
  /\ h `prefix_of` (Money___pos__ env a h).2
  /\ h `prefix_of` (Money___neg__ env a h).2
  /\ h `prefix_of` (Money___abs__ env a h).2
  /\ (forall n,
        h `prefix_of` (Money___round__ env a n h).2
        /\ h `prefix_of` (Money_round env a n h).2).
Proof.
  intros Ha Hk. split; [|split; [|split; [|split; [|split]]]].
  - intros Hoff other. split; [|split].
    + by apply (add_keeps h a ma).
    + by apply (add_keeps h a ma).
    + by apply (sub_keeps h a ma).
  - intros other. split; [|split; [|split]].
    + by apply (mul_keeps h a ma).
    + by apply (mul_keeps h a ma).
    + by apply (truediv_keeps h a ma).
    + apply (derive_keeps _ h a ma _ Ha (base_rmod_ends h a ma other Ha)).
  - apply (derive_keeps _ h a ma _ Ha (base_unary_ends h a ma (fun x => x) Ha)).
  - apply (derive_keeps _ h a ma _ Ha (base_unary_ends h a ma dec_neg Ha)).
  - apply (derive_keeps _ h a ma _ Ha (base_unary_ends h a ma dec_abs Ha)).
  - intros n. split.
    + unfold Money___round__.
      rewrite (bind_ok _ _ _ _ _ (load_self_ok _ _ _ Ha)).
      unfold lift at 1, bind at 1.
      destruct (py_round (amount ma) n) as [x|e]; [|done].
      unfold Money___init__. cbn [default].
      unfold bind at 2, ret at 1. unfold lift at 1, bind at 2.
      destruct (force_decimal x) as [q|e]; [|done].
      unfold alloc at 1, bind at 1.
      rewrite (bind_ok _ _ _ _ _
                 (copy_attributes_new _ _ _ _ _ Ha (valid_lookup _ _ _ Ha))).
      by apply prefix_app_r.
    + apply (derive_keeps _ h a ma _ Ha (base_round_ends h a ma n Ha)).
Qed.

End Immutability.

(** * Instances for the further properties *)

Module MoreExamples.
Import QDecimal Examples.

(** An instance with one decimal place and one without any. *)
Definition bare_objects : list obj :=
  [OMoney (money (10 # 1) "USD" (Some 1) None);
   OMoney (money (3 # 1) "USD" None None)].

(** Settings whose formatter writes the amount without any space. *)
Definition kiosk : Env :=
  mkEnv 2 ∅ false true "en-us" None Django.to_locale convert_money
    (fun _ _ => "USD10.25"%string).

End MoreExamples.

Module MoreWitnesses.
Import QDecimal Examples MoreExamples DjangoHtml.

Lemma copy_attributes_changes_only_decimal_places_witness :
  exists mt',
    Money__copy_attributes 0 (PyRef 1) (PyRef 3) objects
    = (Ok tt, <[3%nat := OMoney mt']> objects)
    /\ klass mt' = DjMoney /\ amount mt' = 0 # 1
    /\ objects !! 3%nat = Some (OMoney nothing)
    /\ <[3%nat := OMoney mt']> objects !! 0%nat = Some (OMoney ten).
Proof.
  destruct (copy_attributes_changes_only_decimal_places objects 0 (PyRef 1) 3
              nothing eq_refl)
    as (mt' & Hrun & Hk & Ha & _ & _ & _ & _ & Hothers).
  exists mt'. split; [exact Hrun|]. split; [exact Hk|]. split; [exact Ha|].
  split; [reflexivity|]. rewrite (Hothers 0%nat) by discriminate. reflexivity.
Defined.

Lemma copy_attributes_takes_the_maximum_witness :
  exists mt',
    Money__copy_attributes 0 (PyRef 1) (PyRef 3) objects
    = (Ok tt, <[3%nat := OMoney mt']> objects)
    /\ decimal_places mt' = Some 4.
Proof.
  destruct (copy_attributes_takes_the_maximum objects 0 (PyRef 1) 3 nothing eq_refl)
    as (mt' & Hrun & (d & Hd & _ & Hsource & Hone)).
  exists mt'. split; [exact Hrun|]. rewrite Hd. f_equal.
  destruct Hone as [[= <-]|[= <-]]; [|reflexivity].
  specialize (Hsource 4 eq_refl). lia.
Defined.

Lemma add_and_sub_refuse_another_currency_witness :
  Money___add__ (shop false) 0 (PyRef 2) objects
  = (Raise (TypeError
       "Cannot add or subtract two Money instances with different currencies."),
     objects).
Proof.
  apply (add_and_sub_refuse_another_currency (shop false) objects 0 2 ten euros);
    try reflexivity. discriminate.
Defined.

Lemma mul_and_rmod_refuse_money_witness :
  Money___mul__ (shop false) 0 (PyRef 1) objects
  = (Raise (TypeError "Cannot multiply two Money instances."), objects)
  /\ Money___rmod__ (shop false) 0 (PyRef 1) objects
     = (Raise (TypeError "Invalid __rmod__ operation"), objects).
Proof.
  destruct (mul_and_rmod_refuse_money (shop false) objects 0 (PyRef 1) five eq_refl)
    as (Hmul & _ & Hrmod).
  split; [exact Hmul|exact Hrmod].
Defined.

Lemma truediv_refuses_another_currency_witness :
  Money___truediv__ (shop true) 0 (PyRef 2) objects
  = (Raise (TypeError "Cannot divide two different currencies."), objects).
Proof.
  apply (truediv_refuses_another_currency (shop true) objects 0 2 ten euros);
    try reflexivity. discriminate.
Defined.

Lemma truediv_by_zero_number_raises_witness :
  Money___truediv__ (shop false) 0 (PyInt 0) objects = (Raise DivisionByZero, objects).
Proof.
  destruct (truediv_by_zero_number_raises (shop false) objects 0 ten (PyInt 0) (0 # 1)
              eq_refl eq_refl eq_refl)
    as (e & He & Hrun).
  injection He as <-. exact Hrun.
Defined.

Lemma operators_compute_on_amounts_witness :
  derives (run (shop false) 0 (Rmod (PyInt 8))) objects
    (fun r => amount r = 41 # 50)
  /\ derives (run (shop false) 0 (Sub 1)) objects (fun r => amount r = 21 # 4).
Proof.
  split.
  - assert (Hop : applicable objects ten (Rmod (PyInt 8))) by by exists (8 # 1).
    apply (derives_impl _ _ _ _
             (operators_compute_on_amounts (shop false) objects 0 ten _
                eq_refl eq_refl Hop)).
    intros r (d & Hd & Hr). injection Hd as <-. by injection Hr as <-.
  - assert (Hop : applicable objects ten (Sub 1)).
    { exists five. repeat split. }
    apply (derives_impl _ _ _ _
             (operators_compute_on_amounts (shop false) objects 0 ten _
                eq_refl eq_refl Hop)).
    intros r (mb & Hb & ->). by injection Hb as <-.
Defined.

Lemma sub_is_add_of_the_negation_witness :
  Money___sub__ (shop false) 0 (PyRef 1) objects
  = (let* negated := Money___neg__ (shop false) 1 in
     Money___add__ (shop false) 0 negated) objects.
Proof.
  apply (sub_is_add_of_the_negation (shop false) objects 0 1 ten five 4);
    reflexivity.
Defined.

Lemma add_commutes_in_metadata_witness :
  exists d,
    derives (Money___add__ (shop false) 0 (PyRef 1)) objects
      (fun r => decimal_places r = d /\ currency r = "USD"%string)
    /\ derives (Money___add__ (shop false) 1 (PyRef 0)) objects
         (fun r => decimal_places r = d /\ currency r = "USD"%string).
Proof.
  apply (add_commutes_in_metadata (shop false) objects 0 1 ten five); reflexivity.
Defined.

Lemma sub_without_operand_places_witness :
  derives (Money___sub__ (shop false) 0 (PyRef 1)) bare_objects
    (fun r => decimal_places r = Some 1)
  /\ derives (let* negated := Money___neg__ (shop false) 1 in
             Money___add__ (shop false) 0 negated) bare_objects
       (fun r => decimal_places r = Some 2).
Proof.
  apply (sub_without_operand_places (shop false) bare_objects 0 1
           (money (10 # 1) "USD" (Some 1) None) (money (3 # 1) "USD" None None) 1);
    reflexivity.
Defined.

Lemma round_agrees_with___round___witness :
  Money_round (shop false) 0 (Some 1) objects
  = Money___round__ (shop false) 0 (Some 1) objects.
Proof.
  apply (round_agrees_with___round__ (shop false) objects 0 ten 1); reflexivity.
Defined.


Lemma zero_operand_returns_the_instance_witness :
  Money___add__ (shop false) 0 (PyDecimal (0 # 1)) objects = (Ok (PyRef 0), objects)
  /\ Money___radd__ (shop false) 0 (PyDecimal (0 # 1)) objects = (Ok (PyRef 0), objects)
  /\ Money___sub__ (shop false) 0 (PyInt 0) objects = (Ok (PyRef 0), objects).
Proof.
  apply (zero_operand_returns_the_instance (shop false) objects 0 ten); reflexivity.
Defined.

Lemma same_currency_is_never_converted_witness :
  Money___add__ (shop true) 0 (PyRef 1) objects
  = Money___add__ (shop false) 0 (PyRef 1) objects
  /\ Money___sub__ (shop true) 0 (PyRef 1) objects
     = Money___sub__ (shop false) 0 (PyRef 1) objects.
Proof.
  apply (same_currency_is_never_converted (shop false) objects 0 1 ten five
           true convert_money); reflexivity.
Defined.

Lemma rendering_follows_the_mapping_witness :
  exists h2 kwargs,
    dict___setitem__ 4 "symbol" (FBool true) objects = (Ok tt, h2)
    /\ h2 !! 0%nat = Some (OMoney ten)
    /\ Money___str__ (shop false) 0 h2 = (Ok (format_money (shop false) ten kwargs), h2)
    /\ kwargs !! "symbol" = Some (FBool true).
Proof.
  apply (rendering_follows_the_mapping (shop false) objects 0 ten 4
           {["symbol" := FBool false]}); try reflexivity. discriminate.
Defined.

Lemma derived_instances_follow_the_setting_witness :
  exists l h',
    run (shop false) 0 Neg objects = (Ok (PyRef l), h')
    /\ Money_is_localized (shop false) l h' = (Ok true, h')
    /\ Money_is_localized (shop false) 0 h' = (Ok true, h').
Proof.
  apply (derived_instances_follow_the_setting (shop false) objects 0 ten Neg);
    [reflexivity|reflexivity|exact I].
Defined.

Lemma options_given_at_construction_reach_format_money_witness :
  exists m h1 kwargs,
    Money___init__ (shop false) (PyInt 1) "USD" None (Some 4%nat) objects
    = (Ok 5%nat, h1)
    /\ h1 !! 5%nat = Some (OMoney m)
    /\ Money___str__ (shop false) 5 h1 = (Ok (format_money (shop false) m kwargs), h1)
    /\ kwargs !! "symbol" = Some (FBool false)
    /\ kwargs !! "grouping" = Some (FBool true).
Proof.
  destruct (options_given_at_construction_reach_format_money (shop false) objects
              (PyInt 1) "USD" None 4 {["symbol" := FBool false]} (1 # 1)
              eq_refl eq_refl)
    as (m & h1 & kwargs & Hinit & Hm & Hstr & Hkeys).
  exists m, h1, kwargs. split; [exact Hinit|]. split; [exact Hm|].
  split; [exact Hstr|]. split.
  - rewrite (Hkeys "symbol") by discriminate. reflexivity.
  - rewrite (Hkeys "grouping") by discriminate. reflexivity.
Defined.

Lemma derived_instances_render_with_the_defaults_witness :
  exists l h' r kwargs,
    run (shop false) 0 Neg objects = (Ok (PyRef l), h')
    /\ h' !! l = Some (OMoney r)
    /\ Money___str__ (shop false) l h' = (Ok (format_money (shop false) r kwargs), h')
    /\ kwargs !! "symbol" = Some (FBool true).
Proof.
  destruct (derived_instances_render_with_the_defaults (shop false) objects 0 ten Neg
              eq_refl eq_refl I)
    as (l & h' & r & kwargs & Hrun & Hl & Hstr & Hkeys).
  exists l, h', r, kwargs. split; [exact Hrun|]. split; [exact Hl|].
  split; [exact Hstr|]. rewrite (Hkeys "symbol") by discriminate. reflexivity.
Defined.

Lemma html_is_safe_and_unbreakable_witness :
  Money___html__ (shop false) 0 objects
  = (Ok (SafeString ("10.25" ++ nbsp ++ "USD")), objects).
Proof.
  destruct (html_is_safe_and_unbreakable (shop false) objects 0 ten eq_refl)
    as (safe & Hrun & _ & Hsafe & _).
  rewrite Hrun. injection Hsafe as ->. reflexivity.
Defined.

Lemma html_keeps_plain_text_witness :
  Money___html__ kiosk 0 objects = (Ok (SafeString "USD10.25"), objects).
Proof.
  apply (html_keeps_plain_text kiosk objects 0 ten eq_refl).
  intros c Hc. simpl in Hc.
  destruct Hc as [<-|[<-|[<-|[<-|[<-|[<-|[]]]]]]]; reflexivity.
Defined.

Lemma sum_of_instances_witness :
  exists l h',
    py_sum (shop false) [0; 1; 3]%nat objects = (Ok (PyRef l), h')
    /\ objects `prefix_of` h'
    /\ holds "USD" h' l (61 # 4, 4).
Proof.
  apply (sum_of_instances (shop false) "USD" objects 0 [1; 3]%nat (41 # 4) 2
           [(5 # 1, 4); (0 # 1, 2)]).
  - reflexivity.
  - exists ten. repeat split.
  - repeat constructor; [exists five|exists nothing]; repeat split.
Defined.

Lemma operators_keep_existing_objects_witness :
  objects `prefix_of` (Money___sub__ (shop false) 0 (PyRef 2) objects).2
  /\ objects `prefix_of` (Money___mul__ (shop false) 0 PyNone objects).2.
Proof.
  destruct (operators_keep_existing_objects (shop false) objects 0 ten eq_refl eq_refl)
    as (Hadd & Hmul & _).
  split.
  - apply (Hadd eq_refl (PyRef 2)).
  - apply (Hmul PyNone).
Defined.

End MoreWitnesses.
